(** * HydrateMate: reminder planning, reminder scheduling and the intake ledger

    A shallow embedding of the reminder routine of [src/App.js]
    ([cancelScheduledNotificationsAndClearStorage], [scheduleReminders],
    [registerForPushNotificationsAsync], [loadJson], [saveJson]) and of the
    intake ledger of [AppProvider] ([addIntake], [resetToday]), followed by
    the properties of the specification that concern them.

    Conventions of the embedding.
    - JavaScript numbers are mathematical integers or [NaN]; the code only
      multiplies by 60, adds and takes remainders, all of which are exact on
      doubles far beyond any minute count a time string of the application
      produces.
    - [Number] is the string-to-number conversion on the fragment the
      development covers (see [JS.Number]); a string outside the fragment
      makes the model answer [None] instead of guessing.
    - The storage and notification collaborators are a record [env] that
      fixes, call site by call site, whether the call of one invocation
      resolves or rejects and what it resolves to. *)

From Stdlib Require Import ZArith String Ascii List Lia Bool.
From stdpp Require Import base option list strings pretty.

Local Open Scope string_scope.
Local Open Scope Z_scope.

(* ===================================================================== *)
(** ** JavaScript values used by the reminder routine                    *)
(* ===================================================================== *)

Module JS.

(** A number: [NaN] or an integer. *)
Inductive num : Type :=
| NaN
| Int (z : Z).

(** What a destructured array element or an object field can hold here. *)
Inductive value : Type :=
| Undefined
| Num (n : num).

#[global] Instance num_eq_dec : EqDecision num.
Proof. solve_decision. Defined.

#[global] Instance value_eq_dec : EqDecision value.
Proof. solve_decision. Defined.

(** [v || d] for a numeric default [d]: [undefined], [NaN] and [0] are
    falsy, every other number is kept. *)
Definition or_num (v : value) (d : Z) : Z :=
  match v with
  | Num (Int z) => if z =? 0 then d else z
  | Num NaN => d
  | Undefined => d
  end.

(** [a || b || d] on optional strings: [undefined], [null] and the empty
    string are falsy. *)
Definition truthy_string (o : option string) : bool :=
  match o with
  | Some s => negb (String.eqb s "")
  | None => false
  end.

Definition or_string (a b : option string) (d : string) : string :=
  if truthy_string a then default d a
  else if truthy_string b then default d b
  else d.

(** [s.split(':')]: the pieces between colons; never the empty list. *)
Fixpoint split_colon (s : string) : list string :=
  match s with
  | EmptyString => [EmptyString]
  | String c r =>
      if Ascii.eqb c ":"%char then EmptyString :: split_colon r
      else match split_colon r with
           | p :: ps => String c p :: ps
           | [] => [String c EmptyString]
           end
  end.

Definition code (c : ascii) : N := N_of_ascii c.

Definition is_digit (c : ascii) : bool :=
  ((48 <=? code c) && (code c <=? 57))%N.

(** Value of a string made of decimal digits only. *)
Fixpoint digits_value (acc : Z) (s : string) : option Z :=
  match s with
  | EmptyString => Some acc
  | String c r =>
      if is_digit c
      then digits_value (10 * acc + Z.of_N (code c - 48)) r
      else None
  end.

(** Characters that occur in some numeric literal of the language:
    digits, sign, point, exponent and radix markers, hexadecimal digits
    and the letters of [Infinity]. *)
Definition literal_char (c : ascii) : bool :=
  is_digit c ||
  existsb (Ascii.eqb c) (list_ascii_of_string "+-.abcdefABCDEFxXoOInity").

(** A visible ASCII character that no numeric literal contains and that
    is not white space: its presence makes the conversion give [NaN]. *)
Definition alien (c : ascii) : bool :=
  ((33 <=? code c) && (code c <=? 126))%N && negb (literal_char c).

(** [Number(s)] on the covered fragment: the empty string is [0], a run
    of decimal digits is its value, a string with an alien character is
    [NaN]. Signs, fractions, exponents, radix prefixes, [Infinity] and
    surrounding white space are outside the fragment ([None]). *)
Definition Number (s : string) : option num :=
  match s with
  | EmptyString => Some (Int 0)
  | _ =>
      match digits_value 0 s with
      | Some z => Some (Int z)
      | None =>
          if existsb alien (list_ascii_of_string s) then Some NaN else None
      end
  end.

(** [const [h, m] = s.split(':').map(Number)]: the first two elements of
    the mapped array; a missing second element is [undefined]. Pieces
    after the second are converted by the code but never read. *)
Definition element (p : option string) : option value :=
  match p with
  | None => Some Undefined
  | Some piece => Num <$> Number piece
  end.

Definition split_map_Number (s : string) : option (value * value) :=
  let parts := split_colon s in
  h ← element (parts !! 0%nat);
  m ← element (parts !! 1%nat);
  Some (h, m).

End JS.

Export JS.


(* ===================================================================== *)
(** ** Data model                                                        *)
(* ===================================================================== *)

(** The fields of the user profile that the reminder routine reads: a
    string, or [None] for [undefined] and [null]. *)
Module User.
Record t : Type := { wakeTime : option string; bedTime : option string }.
End User.

(** The fields of the settings that the reminder routine reads;
    [reminderIntervalMins] is a number or [undefined]. *)
Module Settings.
Record t : Type := {
  remindersEnabled : bool;
  reminderIntervalMins : value;
  wakeTime : option string;
  bedTime : option string
}.
End Settings.

(** An element of [times]: [{ hour, minute }]. The loop stores numbers; the
    fallback of line 128 stores [wakeH] and [wakeM] as they were parsed. *)
Record slot : Type := { hour : value; minute : value }.

#[global] Instance slot_eq_dec : EqDecision slot.
Proof. solve_decision. Defined.

(** Opaque identifier returned by the notification platform. *)
Definition ident : Type := string.

(** What [JSON.parse] gives for the item stored under
    [STORAGE_KEYS.NOTIF_IDS]: an array of identifiers, or something that
    is not an array. *)
Inductive json : Type :=
| JArray (ids : list ident)
| JOther.

(** The part of the device the routine acts on: the item stored under
    [STORAGE_KEYS.NOTIF_IDS] ([None] when absent) and the daily triggers
    registered with the notification platform, oldest first. *)
Record world : Type := {
  notif_ids : option json;
  registered : list (ident * slot)
}.

Inductive status : Type := granted | denied | undetermined.

#[global] Instance status_eq_dec : EqDecision status.
Proof. solve_decision. Defined.

(** The collaborators during one invocation. A field answers one call
    site: [false] or [None] means the promise rejects. [cancel_ok k id] is
    the k-th cancellation, [schedule_res k tm] the k-th registration. *)
Record env : Type := {
  isDevice : bool;
  getItem_ok : bool;
  cancel_ok : nat -> ident -> bool;
  clear_ok : bool;
  getPermissions : option status;
  requestPermissions : option status;
  schedule_res : nat -> slot -> option ident;
  save_ok : bool
}.

(* ===================================================================== *)
(** ** Effects: state, exceptions, and inputs outside the fragment       *)
(* ===================================================================== *)

(** How a JavaScript computation ends: normally with a value, or by
    throwing (the thrown value is only ever logged). *)
Inductive completion (A : Type) : Type :=
| Normal (a : A)
| Throw.
Arguments Normal {A} a.
Arguments Throw {A}.

(** A computation on the world. [None]: the model has no answer (a time
    string outside the fragment of [Number], or the walk out of fuel). *)
Definition M (A : Type) : Type := world -> option (completion A * world).

Definition ret {A} (a : A) : M A := fun w => Some (Normal a, w).

Definition throw {A} : M A := fun w => Some (Throw, w).

Definition bind {A B} (m : M A) (k : A -> M B) : M B := fun w =>
  match m w with
  | Some (Normal a, w') => k a w'
  | Some (Throw, w') => Some (Throw, w')
  | None => None
  end.

(** [try { body } catch (e) { handler }] *)
Definition try_catch {A} (body handler : M A) : M A := fun w =>
  match body w with
  | Some (Throw, w') => handler w'
  | r => r
  end.

Definition lift_option {A} (o : option A) : M A := fun w =>
  match o with
  | Some a => Some (Normal a, w)
  | None => None
  end.

Notation "'let*' x ':=' m 'in' k" := (bind m (fun x => k))
  (at level 10, x pattern, m at level 200, k at level 200).

(* ===================================================================== *)
(** ** Storage helpers and the notification platform                     *)
(* ===================================================================== *)

Definition set_notif_ids (j : json) (w : world) : world :=
  {| notif_ids := Some j; registered := registered w |}.

Definition set_registered (r : list (ident * slot)) (w : world) : world :=
  {| notif_ids := notif_ids w; registered := r |}.

(** [loadJson(STORAGE_KEYS.NOTIF_IDS, fallback)]: the parsed item, or the
    fallback when the item is absent or reading it throws. *)
Definition loadJson (e : env) (fallback : json) : M json := fun w =>
  Some (Normal (if getItem_ok e then default fallback (notif_ids w)
                else fallback), w).

(** [saveJson(STORAGE_KEYS.NOTIF_IDS, val)]: a failing write is logged and
    swallowed. [ok] is the answer of the call site. *)
Definition saveJson (ok : bool) (val : json) : M unit := fun w =>
  Some (Normal tt, if ok then set_notif_ids val w else w).

(** The platform forgets every trigger carrying the identifier. *)
Definition remove_trigger (id : ident) (w : world) : world :=
  set_registered (filter (fun tr => tr.1 <> id) (registered w)) w.

(** [Promise.all(ids.map(id => Notifications.cancelScheduledNotificationAsync(id)))]:
    every cancellation is issued; the result says whether all resolved.
    The cancellations still pending when the first one rejects are taken
    to settle before the routine goes on. *)
Fixpoint cancel_each (e : env) (k : nat) (ids : list ident) (w : world)
  : bool * world :=
  match ids with
  | [] => (true, w)
  | id :: rest =>
      let w1 := if cancel_ok e k id then remove_trigger id w else w in
      let '(ok, w2) := cancel_each e (S k) rest w1 in
      (cancel_ok e k id && ok, w2)
  end.

Definition Promise_all_cancel (e : env) (ids : list ident) : M unit := fun w =>
  let '(ok, w') := cancel_each e 0 ids w in
  Some (if ok then Normal tt else Throw, w').

Definition getPermissionsAsync (e : env) : M status :=
  match getPermissions e with
  | Some st => ret st
  | None => throw
  end.

Definition requestPermissionsAsync (e : env) : M status :=
  match requestPermissions e with
  | Some st => ret st
  | None => throw
  end.

(** [Notifications.scheduleNotificationAsync({ content, trigger })] with a
    daily trigger at [tm]; [k] counts the registrations of the invocation. *)
Definition scheduleNotificationAsync (e : env) (k : nat) (tm : slot) : M ident :=
  fun w =>
    match schedule_res e k tm with
    | Some id => Some (Normal id, set_registered (registered w ++ [(id, tm)]) w)
    | None => Some (Throw, w)
    end.

(* ===================================================================== *)
(** ** The reminder routine                                              *)
(* ===================================================================== *)

Definition registerForPushNotificationsAsync (e : env) : M bool :=
  if negb (isDevice e) then ret false
  else
    let* existingStatus := getPermissionsAsync e in
    let* finalStatus :=
      (if bool_decide (existingStatus <> granted)
       then requestPermissionsAsync e
       else ret existingStatus) in
    ret (bool_decide (finalStatus = granted)).

Definition cancelScheduledNotificationsAndClearStorage (e : env) : M unit :=
  try_catch
    (let* ids := loadJson e (JArray []) in
     let* _ := (match ids with
                | JArray l => Promise_all_cancel e l
                | JOther => ret tt
                end) in
     saveJson (clear_ok e) (JArray []))
    (ret tt).

(** Line 115: [Math.max(15, settings.reminderIntervalMins || 120)]. *)
Definition interval (s : Settings.t) : Z :=
  Z.max 15 (or_num (Settings.reminderIntervalMins s) 120).

(** Line 117. *)
Definition wakeMinutes (wakeH wakeM : value) : Z :=
  or_num wakeH 7 * 60 + or_num wakeM 0.

(** Line 118: the initial value of [bedMinutes]. *)
Definition bedMinutes_init (bedH bedM : value) : Z :=
  or_num bedH 23 * 60 + or_num bedM 0.

(** Lines 118-119: [bedMinutes] once the overnight case is normalized. *)
Definition bedMinutes (wakeMinutes : Z) (bedH bedM : value) : Z :=
  let bedMinutes := bedMinutes_init bedH bedM in
  if bedMinutes <=? wakeMinutes then bedMinutes + 24 * 60 else bedMinutes.

(** The slot pushed for step [t] (lines 123-126); [%] is the remainder
    with the sign of the dividend, [Math.floor(x / 60)] the floor division. *)
Definition slot_at (t : Z) : slot :=
  let minutesOfDay := Z.rem t (24 * 60) in
  let hour := minutesOfDay / 60 in
  let minute := Z.rem minutesOfDay 60 in
  {| hour := Num (Int hour); minute := Num (Int minute) |}.

(** Lines 122-127: [for (let t = wakeMinutes; t <= bedMinutes; t += interval)].
    [None] when the fuel runs out before the guard fails. *)
Fixpoint walk (fuel : nat) (t bedMinutes interval : Z) : option (list slot) :=
  if t <=? bedMinutes then
    match fuel with
    | O => None
    | S fuel' => cons (slot_at t) <$> walk fuel' (t + interval) bedMinutes interval
    end
  else Some [].

(** Enough fuel for a walk with a positive step. *)
Definition walk_fuel (wakeMinutes bedMinutes : Z) : nat :=
  S (Z.to_nat (bedMinutes - wakeMinutes)).

(** Lines 113-128 for given time strings and interval: the list [times]. *)
Definition times (wake bed : string) (interval : Z) : option (list slot) :=
  '(wakeH, wakeM) ← split_map_Number wake;
  '(bedH, bedM) ← split_map_Number bed;
  let wakeMinutes := wakeMinutes wakeH wakeM in
  let bedMinutes := bedMinutes wakeMinutes bedH bedM in
  times ← walk (walk_fuel wakeMinutes bedMinutes) wakeMinutes bedMinutes interval;
  Some (if bool_decide (length times = 0%nat)
        then [ {| hour := wakeH; minute := wakeM |} ]
        else times).

Definition wake_string (user : User.t) (settings : Settings.t) : string :=
  or_string (User.wakeTime user) (Settings.wakeTime settings) "07:00".

Definition bed_string (user : User.t) (settings : Settings.t) : string :=
  or_string (User.bedTime user) (Settings.bedTime settings) "23:00".

(** Lines 136-151: one registration per element of [times]. *)
Fixpoint register_each (e : env) (k : nat) (times : list slot)
  (createdIds : list ident) : M (list ident) :=
  match times with
  | [] => ret createdIds
  | tm :: rest =>
      let* id := scheduleNotificationAsync e k tm in
      register_each e (S k) rest (createdIds ++ [id])
  end.

Definition scheduleReminders (e : env) (user : option User.t)
  (settings : option Settings.t) : M (list ident) :=
  try_catch
    (let* _ := cancelScheduledNotificationsAndClearStorage e in
     match user, settings with
     | Some u, Some s =>
         if negb (Settings.remindersEnabled s) then ret []
         else
           let* times :=
             lift_option (times (wake_string u s) (bed_string u s) (interval s)) in
           let* ok := registerForPushNotificationsAsync e in
           if negb ok then ret []
           else
             let* createdIds := register_each e 0 times [] in
             let* _ := saveJson (save_ok e) (JArray createdIds) in
             ret createdIds
     | _, _ => ret []
     end)
    (ret []).

(** The identifiers held by the item stored under [STORAGE_KEYS.NOTIF_IDS]. *)
Definition persisted (w : world) : list ident :=
  match notif_ids w with
  | Some (JArray ids) => ids
  | _ => []
  end.

(** The identifiers of the triggers registered with the platform. *)
Definition registered_ids (w : world) : list ident := (registered w).*1.

(** The persisted identifiers mirror the registered triggers. *)
Definition mirror (w : world) : Prop :=
  forall id : ident, id ∈ persisted w <-> id ∈ registered_ids w.

(** Minutes since midnight the routine derives from a wake-time string and
    from a bed-time string (before the overnight normalization). *)
Definition wake_minutes (wake : string) : option Z :=
  '(wakeH, wakeM) ← split_map_Number wake; Some (wakeMinutes wakeH wakeM).

Definition bed_minutes (bed : string) : option Z :=
  '(bedH, bedM) ← split_map_Number bed; Some (bedMinutes_init bedH bedM).

(** The triggers registered by the loop of lines 137-151 before its first
    rejection, the identifiers collected with them, and whether some
    registration rejects. *)
Fixpoint collected_triggers (e : env) (k : nat) (times : list slot)
  : list (ident * slot) :=
  match times with
  | [] => []
  | tm :: rest =>
      match schedule_res e k tm with
      | Some id => (id, tm) :: collected_triggers e (S k) rest
      | None => []
      end
  end.

Definition collected (e : env) (k : nat) (times : list slot) : list ident :=
  (collected_triggers e k times).*1.

Fixpoint registration_throws (e : env) (k : nat) (times : list slot) : bool :=
  match times with
  | [] => false
  | tm :: rest =>
      match schedule_res e k tm with
      | Some _ => registration_throws e (S k) rest
      | None => true
      end
  end.

(** No storage call and no cancellation of the invocation rejects. *)
Definition cancellation_succeeds (e : env) : Prop :=
  getItem_ok e = true /\ clear_ok e = true /\
  forall k id, cancel_ok e k id = true.

(** The time strings of an enabled invocation lie in the fragment of
    [Number]; nothing is asked of a disabled invocation. *)
Definition supported (user : option User.t) (settings : option Settings.t)
  : Prop :=
  forall u s, user = Some u -> settings = Some s ->
    Settings.remindersEnabled s = true ->
    is_Some (split_map_Number (wake_string u s)) /\
    is_Some (split_map_Number (bed_string u s)).

Definition with_interval (s : Settings.t) (v : value) : Settings.t :=
  {| Settings.remindersEnabled := Settings.remindersEnabled s;
     Settings.reminderIntervalMins := v;
     Settings.wakeTime := Settings.wakeTime s;
     Settings.bedTime := Settings.bedTime s |}.

(* ===================================================================== *)
(** ** The intake ledger                                                 *)
(* ===================================================================== *)

Record IntakeRecord : Type := { date : string; intake : Z }.

#[global] Instance IntakeRecord_eq_dec : EqDecision IntakeRecord.
Proof. solve_decision. Defined.

(** [cloned.findIndex(r => r.date === today)] *)
Definition findIndex (today : string) (cloned : list IntakeRecord) : option nat :=
  fst <$> list_find (fun r => date r = today) cloned.

(** [cloned[idx].intake += amount] *)
Definition add_to (amount : Z) (r : IntakeRecord) : IntakeRecord :=
  {| date := date r; intake := intake r + amount |}.

(** [addIntake(amount)] as a function of the state it closes over ([user],
    [intakeLog]) and of [formatDate()]; the result is the log handed to
    [setIntakeLog], or the log as it was when the function returns early.
    [cloned[idx].intake += amount] writes into the record object that the
    former [intakeLog] array shares; that array is the state being
    replaced, so the write is seen through the new log only. *)
Definition addIntake (user : option User.t) (today : string) (amount : Z)
  (intakeLog : list IntakeRecord) : list IntakeRecord :=
  match user with
  | None => intakeLog
  | Some _ =>
      let cloned := intakeLog in
      match findIndex today cloned with
      | Some idx => alter (add_to amount) idx cloned
      | None => cloned ++ [ {| date := today; intake := amount |} ]
      end
  end.

Definition resetToday (today : string) (intakeLog : list IntakeRecord)
  : list IntakeRecord :=
  filter (fun r => date r <> today) intakeLog.



(* ===================================================================== *)
(** ** Definitions that follow the words of the specification            *)
(* ===================================================================== *)

(** The interval as the specification words it:
    [max(15, settings.reminderIntervalMins ?? 120)], where [??] replaces
    only [undefined] and [null]. *)
Definition interval_spec (reminderIntervalMins : value) : num :=
  match reminderIntervalMins with
  | Undefined => Int (Z.max 15 120)
  | Num NaN => NaN
  | Num (Int z) => Int (Z.max 15 z)
  end.

(** The slot count of the specification:
    [floor((bedMinutesNormalized - wakeMinutes) / interval) + 1]. *)
Definition slot_count_spec (wakeMinutes bedMinutesNormalized interval : Z) : Z :=
  (bedMinutesNormalized - wakeMinutes) / interval + 1.

(** A well-formed [HH:MM] time of the 24-hour clock, as the data model of
    the specification describes wake and bed times. *)
Definition well_formed_time (s : string) : bool :=
  match list_ascii_of_string s with
  | [h1; h2; c; m1; m2] =>
      is_digit h1 && is_digit h2 && Ascii.eqb c ":"%char &&
      is_digit m1 && is_digit m2 &&
      match digits_value 0 (string_of_list_ascii [h1; h2]),
            digits_value 0 (string_of_list_ascii [m1; m2]) with
      | Some h, Some m => (h <=? 23) && (m <=? 59)
      | _, _ => false
      end
  | _ => false
  end.

(** The step values of a walk: [n] values from [t] on, [i] apart. *)
Fixpoint step_values (t i : Z) (n : nat) : list Z :=
  match n with
  | O => []
  | S n' => t :: step_values (t + i) i n'
  end.

(** How many steps the loop of lines 122-127 takes. *)
Definition steps (t bedMinutes interval : Z) : nat :=
  if t <=? bedMinutes then Z.to_nat ((bedMinutes - t) / interval + 1) else O.

(** The initial state of [settings] in [AppProvider] (line 162). *)
Definition initial_settings : Settings.t :=
  {| Settings.remindersEnabled := true;
     Settings.reminderIntervalMins := Num (Int 120);
     Settings.wakeTime := Some "07:00";
     Settings.bedTime := Some "23:00" |}.

(** A piece of a time string that holds a character no number contains. *)
Definition non_numeric (piece : string) : Prop :=
  existsb alien (list_ascii_of_string piece) = true.

(** A time that is missing from the profile and from the settings, or
    whose every colon-separated piece is non-numeric. *)
Definition unusable (a b : option string) (d : string) : Prop :=
  (truthy_string a = false /\ truthy_string b = false) \/
  Forall non_numeric (split_colon (or_string a b d)).

(** Reminders are off for the invocation: no profile, no settings, or
    [settings.remindersEnabled] false (line 111). *)
Definition disabled (user : option User.t) (settings : option Settings.t)
  : Prop :=
  user = None \/ settings = None \/
  exists s, settings = Some s /\ Settings.remindersEnabled s = false.

(** No call of the invocation rejects (permission may still be denied). *)
Definition nothing_fails (e : env) : Prop :=
  cancellation_succeeds e /\ save_ok e = true /\
  is_Some (getPermissions e) /\ is_Some (requestPermissions e) /\
  forall k tm, is_Some (schedule_res e k tm).

(** A profile with the times of the onboarding form left as they are. *)
Definition onboarded_user : User.t :=
  {| User.wakeTime := Some "07:00"; User.bedTime := Some "23:00" |}.

(** A device on which nothing is stored and nothing is registered. *)
Definition fresh_world : world := {| notif_ids := None; registered := [] |}.

(** Collaborators that grant permission and accept the first [n]
    registrations of the invocation, then reject. *)
Definition rejecting_after (n : nat) : env :=
  {| isDevice := true;
     getItem_ok := true;
     cancel_ok := fun _ _ => true;
     clear_ok := true;
     getPermissions := Some granted;
     requestPermissions := Some granted;
     schedule_res := fun k _ =>
       if (k <? n)%nat then Some (String (ascii_of_nat (97 + k)) EmptyString)
       else None;
     save_ok := true |}.

(** Collaborators for which every cancellation rejects. *)
Definition cancel_rejecting : env :=
  {| isDevice := true;
     getItem_ok := true;
     cancel_ok := fun _ _ => false;
     clear_ok := true;
     getPermissions := Some granted;
     requestPermissions := Some granted;
     schedule_res := fun _ _ => None;
     save_ok := true |}.

(** Collaborators whose every call rejects. *)
Definition rejecting_everything : env :=
  {| isDevice := true;
     getItem_ok := false;
     cancel_ok := fun _ _ => false;
     clear_ok := false;
     getPermissions := None;
     requestPermissions := None;
     schedule_res := fun _ _ => None;
     save_ok := false |}.

(** A device holding two reminders with their identifiers persisted. *)
Definition two_reminders : world :=
  {| notif_ids := Some (JArray ["r1"; "r2"]);
     registered :=
       [ ("r1", {| hour := Num (Int 7); minute := Num (Int 0) |});
         ("r2", {| hour := Num (Int 9); minute := Num (Int 0) |}) ] |}.

(** The part of [scheduleReminders] after the list [times] is built
    (lines 130-154). *)
Definition register_and_save (e : env) (times : list slot) : M (list ident) :=
  let* ok := registerForPushNotificationsAsync e in
  if negb ok then ret []
  else
    let* createdIds := register_each e 0 times [] in
    let* _ := saveJson (save_ok e) (JArray createdIds) in
    ret createdIds.

(* ===================================================================== *)
(** ** Callers of the reminder routine                                   *)
(* ===================================================================== *)

(** The effect of [AppProvider] that reschedules the reminders when the
    user or the reminder settings change (lines 181-192). [e0] answers the
    permission request of the effect itself, [e] the calls of the routine
    it goes on to run; the result is the flag handed to [setNotifReady].
    The effect has no handler of its own. *)
Definition reminders_effect (e0 e : env) (user : option User.t)
  (settings : Settings.t) : M bool :=
  let* ok := registerForPushNotificationsAsync e0 in
  let* _ := (if Settings.remindersEnabled settings
             then let* _ := scheduleReminders e user (Some settings) in ret tt
             else cancelScheduledNotificationsAndClearStorage e) in
  ret ok.

(** The state of [AppProvider] that [clearAllData] resets. *)
Record app_state : Type := {
  st_user : option User.t;
  st_intakeLog : list IntakeRecord
}.

(** The confirmed action of [clearAllData] (lines 477-482):
    [AsyncStorage.clear()] removes every item, the one under
    [STORAGE_KEYS.NOTIF_IDS] included, then the log and the user are
    reset. When the clearing rejects, the handler stops there. *)
Definition clearAllData (clear_resolves : bool) (st : app_state) : M app_state :=
  fun w =>
    if clear_resolves
    then Some (Normal {| st_user := None; st_intakeLog := [] |},
               {| notif_ids := None; registered := registered w |})
    else Some (Throw, w).

(** Collaborators that never reject and accept every registration under
    an identifier made of [c] and the rank of the registration. *)
Definition accepting_with (c : ascii) : env :=
  {| isDevice := true;
     getItem_ok := true;
     cancel_ok := fun _ _ => true;
     clear_ok := true;
     getPermissions := Some granted;
     requestPermissions := Some granted;
     schedule_res := fun k _ => Some (String c (String (ascii_of_nat (97 + k)) EmptyString));
     save_ok := true |}.

Definition accepting : env := accepting_with "n".

(** Collaborators for which the first cancellation rejects and the others
    resolve. *)
Definition first_cancel_rejecting : env :=
  {| isDevice := true;
     getItem_ok := true;
     cancel_ok := fun k _ => negb (k =? 0)%nat;
     clear_ok := true;
     getPermissions := Some granted;
     requestPermissions := Some granted;
     schedule_res := fun _ _ => None;
     save_ok := true |}.

(** Collaborators on a device whose user denies the permission. *)
Definition denying : env :=
  {| isDevice := true;
     getItem_ok := true;
     cancel_ok := fun _ _ => true;
     clear_ok := true;
     getPermissions := Some undetermined;
     requestPermissions := Some denied;
     schedule_res := fun _ _ => None;
     save_ok := true |}.

(** A device holding the two persisted reminders and a third trigger whose
    identifier is not persisted. *)
Definition with_stray_trigger : world :=
  {| notif_ids := Some (JArray ["r1"; "r2"]);
     registered :=
       [ ("r1", {| hour := Num (Int 7); minute := Num (Int 0) |});
         ("zz", {| hour := Num (Int 8); minute := Num (Int 0) |});
         ("r2", {| hour := Num (Int 9); minute := Num (Int 0) |}) ] |}.

(** The time string [h1 h2 : m1 m2]. *)
Definition hhmm (h1 h2 m1 m2 : ascii) : string :=
  String h1 (String h2 (String ":" (String m1 (String m2 EmptyString)))).

(* ===================================================================== *)
(** ** History, streak and achievements                                  *)
(* ===================================================================== *)

(** [intakeLog.find(r => r.date === d)] *)
Definition find_date (d : string) (log : list IntakeRecord) : option IntakeRecord :=
  snd <$> list_find (fun r => date r = d) log.

(** The intake shown for a date: [(find(...) || { date: d, intake: 0 }).intake]
    in the chart and on the home screen, [find(...)?.intake || 0] in the
    rows under the chart. *)
Definition shown_intake (d : string) (log : list IntakeRecord) : Z :=
  intake (default {| date := d; intake := 0 |} (find_date d log)).

Definition row_intake (d : string) (log : list IntakeRecord) : Z :=
  or_num (default Undefined ((fun r => Num (Int (intake r))) <$> find_date d log)) 0.

(** [lastNDays(n)] (lines 430-434); [daysAgo i] stands for
    [dayjs().subtract(i, 'day').format('YYYY-MM-DD')]. *)
Fixpoint lastNDays (daysAgo : nat -> string) (n : nat) : list string :=
  match n with
  | O => []
  | S i => daysAgo i :: lastNDays daysAgo i
  end.

(** [last7] of [HistoryScreen] (lines 385-389): the data of the chart. *)
Definition last7 (daysAgo : nat -> string) (intakeLog : list IntakeRecord) : list Z :=
  (fun d => shown_intake d intakeLog) <$> lastNDays daysAgo 7.

(** The rows under the chart (lines 417-425), newest day first. *)
Definition history_rows (daysAgo : nat -> string) (intakeLog : list IntakeRecord)
  : list (string * Z) :=
  (fun d => (d, row_intake d intakeLog)) <$> reverse (lastNDays daysAgo 7).

Definition loadTodayGoalFromStorageSync : Z := 2000.

(** The loop of [computeStreak] (lines 597-601) from day [i] on, with
    [left] iterations left before [i] reaches 365. *)
Fixpoint computeStreak_from (daysAgo : nat -> string) (goal : Z)
  (log : list IntakeRecord) (i left : nat) : nat :=
  match left with
  | O => O
  | S left' =>
      match find_date (daysAgo i) log with
      | Some entry =>
          if goal <=? intake entry
          then S (computeStreak_from daysAgo goal log (S i) left')
          else O
      | None => O
      end
  end.

Definition computeStreak (daysAgo : nat -> string) (log : list IntakeRecord) : nat :=
  let goal := or_num (Num (Int loadTodayGoalFromStorageSync)) 2000 in
  computeStreak_from daysAgo goal log 0 365.

(** The badges of [AchievementsScreen] (lines 573-580). The test
    [d.intake >= 1.2 * goal] is taken over the integers as
    [6 * goal <= 5 * d.intake]; the product [1.2 * 2000] is 2400 exactly. *)
Definition achievements (daysAgo : nat -> string) (intakeLog : list IntakeRecord)
  : list string :=
  let streak := computeStreak daysAgo intakeLog in
  let overachiever :=
    existsb (fun d => 6 * or_num (Num (Int loadTodayGoalFromStorageSync)) 2000
                      <=? 5 * intake d) intakeLog in
  ((if (7 <=? streak)%nat then ["7-day Streak"] else []) ++
   (if (30 <=? streak)%nat then ["30-day Streak"] else []) ++
   (if overachiever then ["Overachiever"] else []))%list.

(** A day meets the goal when the first record of its date holds at least
    the goal. *)
Definition goal_met (goal : Z) (d : string) (log : list IntakeRecord) : Prop :=
  exists entry, find_date d log = Some entry /\ goal <= intake entry.

(* ===================================================================== *)
(** ** [parseInt] and the home screen                                    *)
(* ===================================================================== *)

Module JSInt.

Definition is_space (c : ascii) : bool :=
  (((9 <=? code c) && (code c <=? 13)) || (code c =? 32))%N.

(** Leading white space removed. [None]: a byte outside ASCII stands where
    white space may stand, and the embedding has no Unicode table. *)
Fixpoint skip_spaces (s : string) : option string :=
  match s with
  | EmptyString => Some EmptyString
  | String c r =>
      if is_space c then skip_spaces r
      else if (128 <=? code c)%N then None
      else Some s
  end.

(** The value of a character as a digit, up to radix 36. *)
Definition digit_of (c : ascii) : option Z :=
  if is_digit c then Some (Z.of_N (code c) - 48)
  else if ((97 <=? code c) && (code c <=? 122))%N then Some (Z.of_N (code c) - 87)
  else if ((65 <=? code c) && (code c <=? 90))%N then Some (Z.of_N (code c) - 55)
  else None.

(** The value of the longest prefix made of digits of the radix; [acc] is
    [None] as long as no digit was read. *)
Fixpoint parse_digits (radix : Z) (acc : option Z) (s : string) : option Z :=
  match s with
  | EmptyString => acc
  | String c r =>
      match digit_of c with
      | Some d =>
          if d <? radix
          then parse_digits radix (Some (radix * default 0 acc + d)) r
          else acc
      | None => acc
      end
  end.

(** [parseInt(s, radix)]; [radix] is [None] when the argument is left out. *)
Definition parseInt (s : string) (radix : option Z) : option num :=
  str ← skip_spaces s;
  let sign := match str with
              | String c _ => if Ascii.eqb c "-" then -1 else 1
              | EmptyString => 1
              end in
  let str1 := match str with
            | String c r => if Ascii.eqb c "-" || Ascii.eqb c "+" then r else str
            | EmptyString => str
            end in
  let R := default 0 radix in
  if negb (R =? 0) && ((R <? 2) || (36 <? R)) then Some NaN
  else
    let stripPrefix := (R =? 0) || (R =? 16) in
    let R1 := if R =? 0 then 10 else R in
    let prefixed := match str1 with
                    | String c0 (String c1 _) =>
                        Ascii.eqb c0 "0" && (Ascii.eqb c1 "x" || Ascii.eqb c1 "X")
                    | _ => false
                    end in
    let R2 := if stripPrefix && prefixed then 16 else R1 in
    let str2 := if stripPrefix && prefixed
                then match str1 with String _ (String _ r) => r | _ => str1 end
                else str1 in
    Some (match parse_digits R2 None str2 with
          | Some v => Int (sign * v)
          | None => NaN
          end).

End JSInt.

Export JSInt.

Inductive alert : Type := Enter_positive_ml | Goal_reached.

(** The state of [HomeScreen] that [handleAdd] writes. *)
Record home_state : Type := {
  hs_input : string;
  hs_message : string;
  hs_showConfetti : bool
}.

Definition tips : list string :=
  ["Keep sipping!"; "Great job!"; "Hydration boost!"; "Nice!"].

(** [handleAdd] of [HomeScreen] (lines 305-317) as a function of what it
    closes over: [user] and [intakeLog] through [addIntake], [userGoal] for
    [user?.goal], the date, and [rnd] for [Math.floor(Math.random() * 4)].
    The result is the log, the screen state and the alert raised, if any.
    The timer that hides the confetti after four seconds is left out. *)
Definition handleAdd (user : option User.t) (userGoal : value) (today : string)
  (rnd : nat) (intakeLog : list IntakeRecord) (h : home_state)
  : option (list IntakeRecord * home_state * option alert) :=
  n ← parseInt (hs_input h) None;
  Some (match n with
        | NaN => (intakeLog, h, Some Enter_positive_ml)
        | Int n =>
            if (n =? 0) || (n <=? 0) then (intakeLog, h, Some Enter_positive_ml)
            else
              let intake := shown_intake today intakeLog in
              let goal := or_num userGoal 2000 in
              let reached := goal <=? intake + n in
              (addIntake user today n intakeLog,
               {| hs_input := "";
                  hs_message := default "" (tips !! rnd);
                  hs_showConfetti := if reached then true else hs_showConfetti h |},
               if reached then Some Goal_reached else None)
        end).

(* ===================================================================== *)
(** ** Colours of the chart                                              *)
(* ===================================================================== *)

(** [makeTheme(isDark)] (lines 41-77). *)
Record theme : Type := {
  background : string; surface : string; card : string; primary : string;
  accent : string; text : string; subtext : string; border : string;
  inputBg : string; wave : string; topbar : string; statusBarStyle : string;
  gradientLight : list string; gradientPrimary : list string
}.

Definition makeTheme (isDark : bool) : theme :=
  if negb isDark then
    {| background := "#f6fbff"; surface := "#ffffff";
       card := "rgba(255,255,255,0.95)"; primary := "#0077b6";
       accent := "#00b4d8"; text := "#083344"; subtext := "#666";
       border := "#e6f0f4"; inputBg := "#fff"; wave := "#00bfff";
       topbar := "#05668d"; statusBarStyle := "dark-content";
       gradientLight := ["#e0f7ff"; "#cfeefd"];
       gradientPrimary := ["#00b4d8"; "#0077b6"] |}
  else
    {| background := "#071023"; surface := "#0b1220";
       card := "#0f1724"; primary := "#5dd6ff";
       accent := "#4fb6d9"; text := "#e6f7ff"; subtext := "#a9c7d7";
       border := "#122033"; inputBg := "#071323"; wave := "#2bb7ff";
       topbar := "#7ad0ff"; statusBarStyle := "light-content";
       gradientLight := ["#042033"; "#063142"];
       gradientPrimary := ["#036b8f"; "#024b6a"] |}.

(** [hex.replace('#', '')]: the first ['#'] removed. *)
Fixpoint replace_hash (s : string) : string :=
  match s with
  | EmptyString => EmptyString
  | String c r => if Ascii.eqb c "#" then r else String c (replace_hash r)
  end.

(** A number inside a template literal. *)
Definition show (n : num) : string :=
  match n with
  | NaN => "NaN"
  | Int z => pretty z
  end.

(** [hexToRgba(hex, opacity)] (lines 435-440); [opacity] is given as the
    text the template prints for it. *)
Definition hexToRgba (hex : string) (opacity : string) : option string :=
  let h := replace_hash hex in
  r ← parseInt (substring 0 2 h) (Some 16);
  g ← parseInt (substring 2 2 h) (Some 16);
  b ← parseInt (substring 4 2 h) (Some 16);
  Some ("rgba(" +:+ show r +:+ ", " +:+ show g +:+ ", " +:+ show b +:+ ", "
        +:+ opacity +:+ ")").

(** A date string for the day [i] days ago, for the examples: day 0 is
    2024-05-09, day 8 is 2024-05-01. *)
Definition may_days_ago (i : nat) : string :=
  String.append "2024-05-0" (String (ascii_of_nat (48 + (9 - i))) EmptyString).

(** [c] is a hexadecimal digit of value [d]. *)
Definition hex_digit (c : ascii) (d : Z) : Prop :=
  digit_of c = Some d /\ d < 16.



(* ===================================================================== *)
(** * Properties                                                         *)
(* ===================================================================== *)

(** ** The embedding on concrete inputs *)

Example split_colon_hhmm : split_colon "22:00" = ["22"; "00"].
Proof. reflexivity. Qed.

Example split_colon_no_colon : split_colon "9" = ["9"].
Proof. reflexivity. Qed.

Example Number_digits : Number "06" = Some (Int 6).
Proof. reflexivity. Qed.

Example Number_empty : Number "" = Some (Int 0).
Proof. reflexivity. Qed.

Example Number_alien : Number "zz" = Some NaN.
Proof. reflexivity. Qed.

Example Number_outside_fragment : Number "7.5" = None.
Proof. reflexivity. Qed.

Example split_map_Number_missing_minute :
  split_map_Number "9" = Some (Num (Int 9), Undefined).
Proof. reflexivity. Qed.

(** The daytime plan of the specification: nine slots, 07:00 to 23:00. *)
Example times_daytime :
  times "07:00" "23:00" 120 =
    Some ((fun h => {| hour := Num (Int h); minute := Num (Int 0) |})
            <$> [7; 9; 11; 13; 15; 17; 19; 21; 23]).
Proof. reflexivity. Qed.

(** An hour of zero is falsy: wake "00:30" is planned from 07:30. *)
Example wake_minutes_midnight_hour : wake_minutes "00:30" = Some 450.
Proof. reflexivity. Qed.

(** With every call accepted, the identifiers are returned and persisted. *)
Example scheduleReminders_all_accepted :
  scheduleReminders (rejecting_after 9) (Some onboarded_user)
    (Some initial_settings) two_reminders =
  Some (Normal ["a"; "b"; "c"; "d"; "e"; "f"; "g"; "h"; "i"],
        {| notif_ids := Some (JArray ["a"; "b"; "c"; "d"; "e"; "f"; "g"; "h"; "i"]);
           registered :=
             zip ["a"; "b"; "c"; "d"; "e"; "f"; "g"; "h"; "i"]
                 (slot_at <$> step_values 420 120 9) |}).
Proof. reflexivity. Qed.

(** ** The fragment of [Number] *)

Lemma digit_not_colon c : is_digit c = true -> Ascii.eqb c ":"%char = false.
Proof.
  destruct (Ascii.eqb_spec c ":"%char) as [->|]; [|done].
  vm_compute. discriminate.
Qed.

Lemma digits_value_bounds s acc z :
  0 <= acc -> digits_value acc s = Some z -> 0 <= z.
Proof.
  revert acc. induction s as [|c r IH]; intros acc Hacc; simpl.
  - intros [= <-]. done.
  - destruct (is_digit c); [|done]. apply IH. lia.
Qed.

Lemma Number_nonneg piece z : Number piece = Some (Int z) -> 0 <= z.
Proof.
  unfold Number. destruct piece as [|c r]; [by intros [= <-]|].
  destruct (digits_value 0 (String c r)) as [z'|] eqn:Hz.
  - intros [= <-]. by apply (digits_value_bounds (String c r) 0).
  - by destruct (existsb alien _).
Qed.

(** A component read from a time string is never negative, with or
    without its default. *)
Lemma split_map_Number_nonneg s h m :
  split_map_Number s = Some (h, m) ->
  forall d, 0 <= d -> 0 <= or_num h d /\ 0 <= or_num m d.
Proof.
  unfold split_map_Number.
  assert (Hel : forall p v d, element p = Some v -> 0 <= d -> 0 <= or_num v d).
  { intros [piece|] v d; simpl.
    - destruct (Number piece) as [[|z]|] eqn:Hn; intros [= <-] Hd; simpl; [done|].
      apply Number_nonneg in Hn. destruct (z =? 0); lia.
    - intros [= <-] Hd. done. }
  destruct (element (split_colon s !! 0%nat)) as [h'|] eqn:Hh; [|done].
  destruct (element (split_colon s !! 1%nat)) as [m'|] eqn:Hm; [|done].
  intros [= <- <-] d Hd. split; eauto.
Qed.



(** ** The planning walk *)

Lemma step_values_length t i n : length (step_values t i n) = n.
Proof. revert t. induction n as [|n IH]; intros t; simpl; [done | by rewrite IH]. Qed.


Lemma steps_succ t bed i :
  0 < i -> t <= bed -> steps t bed i = S (steps (t + i) bed i).
Proof.
  intros Hi Hle. unfold steps.
  destruct (Z.leb_spec t bed) as [_|?]; [|lia].
  destruct (Z.leb_spec (t + i) bed) as [Hle'|Hgt].
  - replace (bed - t) with ((bed - (t + i)) + 1 * i) by lia.
    rewrite Z.div_add by lia.
    assert (0 <= (bed - (t + i)) / i) by (apply Z.div_pos; lia).
    lia.
  - rewrite Z.div_small by lia. reflexivity.
Qed.

(** With enough fuel the loop ends by its guard and pushes one slot per
    step value. *)
Lemma walk_closed_form fuel t bed i :
  0 < i -> (t <= bed -> (Z.to_nat (bed - t) < fuel)%nat) ->
  walk fuel t bed i = Some (slot_at <$> step_values t i (steps t bed i)).
Proof.
  intros Hi. revert t. induction fuel as [|fuel IH]; intros t Hfuel.
  - simpl. destruct (Z.leb_spec t bed) as [Hle|Hgt]; [specialize (Hfuel Hle); lia|].
    unfold steps. destruct (Z.leb_spec t bed); [lia | done].
  - simpl. destruct (Z.leb_spec t bed) as [Hle|Hgt].
    + rewrite IH by (intros; specialize (Hfuel Hle); lia).
      rewrite (steps_succ t bed i) by done. reflexivity.
    + unfold steps. destruct (Z.leb_spec t bed); [lia | done].
Qed.

Lemma walk_fuel_enough wm bm i :
  0 < i ->
  walk (walk_fuel wm bm) wm bm i = Some (slot_at <$> step_values wm i (steps wm bm i)).
Proof. intros Hi. apply walk_closed_form; [done|]. unfold walk_fuel. lia. Qed.

Lemma interval_ge_15 s : 15 <= interval s.
Proof. unfold interval. lia. Qed.

Lemma steps_spec wm bm i :
  0 < i -> wm <= bm -> Z.of_nat (steps wm bm i) = slot_count_spec wm bm i.
Proof.
  intros Hi Hle. unfold steps, slot_count_spec.
  destruct (Z.leb_spec wm bm); [|lia].
  assert (0 <= (bm - wm) / i) by (apply Z.div_pos; lia). lia.
Qed.

(** The list [times] in closed form, for strings of the fragment. *)
Lemma times_closed_form wake bed i wakeH wakeM bedH bedM :
  split_map_Number wake = Some (wakeH, wakeM) ->
  split_map_Number bed = Some (bedH, bedM) ->
  0 < i ->
  times wake bed i =
    let wm := wakeMinutes wakeH wakeM in
    let bm := bedMinutes wm bedH bedM in
    let ts := slot_at <$> step_values wm i (steps wm bm i) in
    Some (if bool_decide (length ts = 0%nat)
          then [ {| hour := wakeH; minute := wakeM |} ] else ts).
Proof.
  intros Hw Hb Hi. unfold times. rewrite Hw, Hb. cbn [mbind option_bind].
  rewrite walk_fuel_enough by done. reflexivity.
Qed.




(** C4. Wake "22:00", bed "06:00", interval 180: the bed minutes 360 are
    normalized to 1800 and the slots are 22:00, 01:00 and 04:00, the step
    values 1320, 1500 and 1680 taken modulo 1440. *)
Theorem times_overnight :
  wake_minutes "22:00" = Some 1320 /\
  bed_minutes "06:00" = Some 360 /\
  bedMinutes 1320 (Num (Int 6)) (Num (Int 0)) = 1800 /\
  interval (with_interval initial_settings (Num (Int 180))) = 180 /\
  times "22:00" "06:00" 180 =
    Some [ {| hour := Num (Int 22); minute := Num (Int 0) |};
           {| hour := Num (Int 1); minute := Num (Int 0) |};
           {| hour := Num (Int 4); minute := Num (Int 0) |} ] /\
  slot_at <$> [1320; 1500; 1680] =
    [ {| hour := Num (Int 22); minute := Num (Int 0) |};
      {| hour := Num (Int 1); minute := Num (Int 0) |};
      {| hour := Num (Int 4); minute := Num (Int 0) |} ].
Proof. repeat split; reflexivity. Qed.

(** ** Defaults of the time strings and of the interval *)

Lemma alien_not_digit c : alien c = true -> is_digit c = false.
Proof.
  unfold alien, literal_char. destruct (is_digit c); [|done].
  rewrite andb_false_r. done.
Qed.

Lemma digits_value_non_numeric piece acc :
  non_numeric piece -> digits_value acc piece = None.
Proof.
  unfold non_numeric. revert acc.
  induction piece as [|c r IH]; intros acc H; simpl in *; [done|].
  destruct (alien c) eqn:Hc.
  - by rewrite (alien_not_digit c Hc).
  - destruct (is_digit c); [by apply IH | done].
Qed.

Lemma Number_non_numeric piece : non_numeric piece -> Number piece = Some NaN.
Proof.
  intros H. unfold Number. destruct piece as [|c r]; [done|].
  rewrite (digits_value_non_numeric _ 0 H). by rewrite H.
Qed.

Lemma split_colon_not_nil s : split_colon s <> [].
Proof.
  destruct s as [|c r]; simpl; [done|].
  destruct (Ascii.eqb c ":"); [done|]. by destruct (split_colon r).
Qed.

(** A string without a numeric piece parses to a [NaN] hour and a [NaN]
    or missing minute. *)
Lemma split_map_Number_non_numeric s :
  Forall non_numeric (split_colon s) ->
  exists m, split_map_Number s = Some (Num NaN, m) /\ (m = Undefined \/ m = Num NaN).
Proof.
  intros H. unfold split_map_Number.
  pose proof (split_colon_not_nil s) as Hnil.
  destruct (split_colon s) as [|p0 [|p1 ps]]; [done| |].
  - apply Forall_cons in H as [H0 _]. simpl.
    rewrite (Number_non_numeric _ H0). simpl. eauto.
  - apply Forall_cons in H as [H0 H]. apply Forall_cons in H as [H1 _]. simpl.
    rewrite (Number_non_numeric _ H0), (Number_non_numeric _ H1). simpl. eauto.
Qed.

Lemma or_string_missing a b d :
  truthy_string a = false -> truthy_string b = false -> or_string a b d = d.
Proof. intros Ha Hb. unfold or_string. by rewrite Ha, Hb. Qed.

Lemma walk_not_empty fuel t bed i : t <= bed -> walk fuel t bed i <> Some [].
Proof.
  intros Hle. destruct fuel as [|fuel]; simpl;
    destruct (Z.leb_spec t bed); try lia; [done|].
  by destruct (walk fuel (t + i) bed i).
Qed.

Lemma bedMinutes_ge_wake bed bedH bedM wm :
  split_map_Number bed = Some (bedH, bedM) -> wm < 1440 ->
  wm <= bedMinutes wm bedH bedM.
Proof.
  intros Hb Hwm. unfold bedMinutes, bedMinutes_init.
  destruct (split_map_Number_nonneg bed bedH bedM Hb 23) as [? _]; [lia|].
  destruct (split_map_Number_nonneg bed bedH bedM Hb 0) as [_ ?]; [lia|].
  destruct (Z.leb_spec (or_num bedH 23 * 60 + or_num bedM 0) wm); lia.
Qed.

(** Two wake strings with the same wake minutes, below 1440, give the same
    list [times]: the fallback of line 128, which reads the parsed pieces
    themselves, is not reached. *)
Lemma times_same_wake_minutes wake wake' bed i h m h' m' :
  split_map_Number wake = Some (h, m) ->
  split_map_Number wake' = Some (h', m') ->
  wakeMinutes h m = wakeMinutes h' m' ->
  wakeMinutes h m < 1440 ->
  times wake bed i = times wake' bed i.
Proof.
  intros Hw Hw' Heq Hlt. unfold times. rewrite Hw, Hw'. cbn [mbind option_bind].
  destruct (split_map_Number bed) as [[bedH bedM]|] eqn:Hb; [|done].
  cbn [mbind option_bind]. rewrite <- Heq.
  pose proof (bedMinutes_ge_wake bed bedH bedM _ Hb Hlt) as Hle.
  pose proof (walk_not_empty
                (walk_fuel (wakeMinutes h m) (bedMinutes (wakeMinutes h m) bedH bedM))
                _ _ i Hle) as Hne.
  destruct (walk _ _ _ i) as [[|tm ts]|]; [done | reflexivity | reflexivity].
Qed.

(** Two bed strings with the same initial bed minutes give the same list. *)
Lemma times_same_bed_minutes wake bed bed' i h m h' m' :
  split_map_Number bed = Some (h, m) ->
  split_map_Number bed' = Some (h', m') ->
  bedMinutes_init h m = bedMinutes_init h' m' ->
  times wake bed i = times wake bed' i.
Proof.
  intros Hb Hb' Heq. unfold times. rewrite Hb, Hb'.
  destruct (split_map_Number wake) as [[wakeH wakeM]|]; [|done].
  cbn [mbind option_bind]. unfold bedMinutes. rewrite Heq. reflexivity.
Qed.

(** C5 (amended). A wake time that is missing from the profile and from
    the settings, or none of whose colon-separated pieces is numeric, is
    planned as "07:00": 420 wake minutes and the same list [times]; such a
    bed time is planned as "23:00": 1380 bed minutes and the same list. *)
Theorem unusable_time_defaults (u : User.t) (s : Settings.t) :
  (unusable (User.wakeTime u) (Settings.wakeTime s) "07:00" ->
   wake_minutes (wake_string u s) = Some 420 /\
   forall (bed : string) (i : Z),
     times (wake_string u s) bed i = times "07:00" bed i) /\
  (unusable (User.bedTime u) (Settings.bedTime s) "23:00" ->
   bed_minutes (bed_string u s) = Some 1380 /\
   forall (wake : string) (i : Z),
     times wake (bed_string u s) i = times wake "23:00" i).
Proof.
  unfold wake_string, bed_string. split.
  - intros [[Ha Hb]|Hw].
    + by rewrite or_string_missing.
    + destruct (split_map_Number_non_numeric _ Hw) as (m & Hm & Hcase).
      assert (Hmin : wakeMinutes (Num NaN) m = 420) by (by destruct Hcase as [-> | ->]).
      split; [unfold wake_minutes; by rewrite Hm, <- Hmin|].
      intros bed i.
      apply (times_same_wake_minutes _ "07:00" bed i (Num NaN) m (Num (Int 7)) (Num (Int 0)));
        [done | reflexivity | by rewrite Hmin | rewrite Hmin; lia].
  - intros [[Ha Hb]|Hb].
    + by rewrite or_string_missing.
    + destruct (split_map_Number_non_numeric _ Hb) as (m & Hm & Hcase).
      assert (Hmin : bedMinutes_init (Num NaN) m = 1380) by (by destruct Hcase as [-> | ->]).
      split; [unfold bed_minutes; by rewrite Hm, <- Hmin|].
      intros wake i.
      apply (times_same_bed_minutes wake _ "23:00" i (Num NaN) m (Num (Int 23)) (Num (Int 0)));
        [done | reflexivity | by rewrite Hmin].
Qed.

Lemma unusable_time_defaults_witness :
  (wake_minutes
     (wake_string {| User.wakeTime := Some "soon"; User.bedTime := None |}
        {| Settings.remindersEnabled := true;
           Settings.reminderIntervalMins := Undefined;
           Settings.wakeTime := None; Settings.bedTime := Some "" |}) = Some 420 /\
   forall (bed : string) (i : Z),
     times
       (wake_string {| User.wakeTime := Some "soon"; User.bedTime := None |}
          {| Settings.remindersEnabled := true;
             Settings.reminderIntervalMins := Undefined;
             Settings.wakeTime := None; Settings.bedTime := Some "" |}) bed i
     = times "07:00" bed i) /\
  (bed_minutes
     (bed_string {| User.wakeTime := Some "soon"; User.bedTime := None |}
        {| Settings.remindersEnabled := true;
           Settings.reminderIntervalMins := Undefined;
           Settings.wakeTime := None; Settings.bedTime := Some "" |}) = Some 1380 /\
   forall (wake : string) (i : Z),
     times wake
       (bed_string {| User.wakeTime := Some "soon"; User.bedTime := None |}
          {| Settings.remindersEnabled := true;
             Settings.reminderIntervalMins := Undefined;
             Settings.wakeTime := None; Settings.bedTime := Some "" |}) i
     = times wake "23:00" i).
Proof.
  split.
  - apply (unusable_time_defaults
             {| User.wakeTime := Some "soon"; User.bedTime := None |}
             {| Settings.remindersEnabled := true;
                Settings.reminderIntervalMins := Undefined;
                Settings.wakeTime := None; Settings.bedTime := Some "" |}).
    right. vm_compute. repeat constructor.
  - apply (unusable_time_defaults
             {| User.wakeTime := Some "soon"; User.bedTime := None |}
             {| Settings.remindersEnabled := true;
                Settings.reminderIntervalMins := Undefined;
                Settings.wakeTime := None; Settings.bedTime := Some "" |}).
    left. split; reflexivity.
Defined.

(** C5 (as stated) fails: the malformed wake time "09:zz" is planned as
    09:00, 540 minutes, and the malformed bed time "21:zz" as 21:00, 1260
    minutes, not as 07:00 and 23:00. *)
Lemma malformed_time_counterexample :
  well_formed_time "09:zz" = false /\
  wake_minutes "09:zz" = Some 540 /\
  wake_minutes "09:zz" <> Some 420 /\
  well_formed_time "21:zz" = false /\
  bed_minutes "21:zz" = Some 1260 /\
  bed_minutes "21:zz" <> Some 1380.
Proof. repeat split; try reflexivity; vm_compute; discriminate. Qed.

(** C6 (amended). The interval is [max(15, reminderIntervalMins || 120)]:
    120 when [reminderIntervalMins] is undefined, [NaN] or 0, and the
    number clamped to at least 15 otherwise, where it agrees with the
    wording of the specification. The routine with interval 5 is the
    routine with interval 15, and so is the list [times]. *)
Theorem interval_clamped (s : Settings.t) :
  match Settings.reminderIntervalMins s with
  | Undefined => interval s = 120 /\ interval_spec Undefined = Int (interval s)
  | Num NaN => interval s = 120
  | Num (Int z) =>
      if z =? 0 then interval s = 120
      else interval s = Z.max 15 z /\ interval_spec (Num (Int z)) = Int (interval s)
  end /\
  interval (with_interval s (Num (Int 5))) = 15 /\
  interval (with_interval s (Num (Int 15))) = 15 /\
  (forall wake bed : string,
      times wake bed (interval (with_interval s (Num (Int 5)))) =
      times wake bed (interval (with_interval s (Num (Int 15))))) /\
  (forall (e : env) (user : option User.t) (w : world),
      scheduleReminders e user (Some (with_interval s (Num (Int 5)))) w =
      scheduleReminders e user (Some (with_interval s (Num (Int 15)))) w).
Proof.
  split; [|split; [|split; [|split]]]; try reflexivity.
  unfold interval. destruct (Settings.reminderIntervalMins s) as [|[|z]]; simpl;
    try (split; reflexivity); try reflexivity.
  destruct (Z.eqb_spec z 0); [reflexivity | split; reflexivity].
Qed.

(** C6 (as stated) fails: for [reminderIntervalMins = 0] the code plans
    with 120, while [max(15, 0 ?? 120)] is 15. *)
Lemma interval_zero_counterexample :
  interval (with_interval initial_settings (Num (Int 0))) = 120 /\
  interval_spec (Num (Int 0)) = Int 15 /\
  interval_spec (Num (Int 0)) <>
    Int (interval (with_interval initial_settings (Num (Int 0)))).
Proof. repeat split; try reflexivity; vm_compute; discriminate. Qed.

(** ** The scheduler *)

Lemma set_registered_same w : set_registered (registered w) w = w.
Proof. by destruct w. Qed.

Lemma filter_not_elem_of_nil (l : list (ident * slot)) :
  filter (fun tr => tr.1 ∉ ([] : list ident)) l = l.
Proof.
  induction l as [|x l IH]; [done|].
  rewrite filter_cons_True by apply not_elem_of_nil. by rewrite IH.
Qed.

(** When every cancellation resolves, exactly the triggers carrying one of
    the identifiers are gone. *)
Lemma cancel_each_all_resolve e k ids w :
  (forall k id, cancel_ok e k id = true) ->
  cancel_each e k ids w =
    (true, set_registered (filter (fun tr => tr.1 ∉ ids) (registered w)) w).
Proof.
  intros Hok. revert k w. induction ids as [|id rest IH]; intros k w; simpl.
  - by rewrite filter_not_elem_of_nil, set_registered_same.
  - rewrite Hok, IH. simpl. unfold set_registered. simpl. do 2 f_equal.
    rewrite list_filter_filter. apply list_filter_iff.
    intros [i tm]. simpl. rewrite not_elem_of_cons. tauto.
Qed.

(** The cancellation step never throws and always gives an answer. *)
Lemma cancel_returns e w :
  exists w', cancelScheduledNotificationsAndClearStorage e w = Some (Normal tt, w').
Proof.
  unfold cancelScheduledNotificationsAndClearStorage, try_catch, bind, loadJson.
  destruct (if getItem_ok e then default (JArray []) (notif_ids w) else JArray [])
    as [l|]; simpl.
  - unfold Promise_all_cancel. destruct (cancel_each e 0 l w) as [[] w1];
      simpl; unfold saveJson, ret; eauto.
  - unfold saveJson, ret. simpl. eauto.
Qed.

Lemma cancel_when_succeeds e w :
  cancellation_succeeds e ->
  cancelScheduledNotificationsAndClearStorage e w =
    Some (Normal tt,
          {| notif_ids := Some (JArray []);
             registered := filter (fun tr => tr.1 ∉ persisted w) (registered w) |}).
Proof.
  intros (Hget & Hclear & Hcancel).
  unfold cancelScheduledNotificationsAndClearStorage, try_catch, bind, loadJson.
  rewrite Hget. unfold persisted.
  destruct (notif_ids w) as [[l|]|]; simpl.
  - unfold Promise_all_cancel. rewrite cancel_each_all_resolve by done.
    unfold saveJson. rewrite Hclear. reflexivity.
  - unfold saveJson. rewrite Hclear, filter_not_elem_of_nil. reflexivity.
  - unfold Promise_all_cancel. simpl. unfold saveJson. rewrite Hclear.
    rewrite filter_not_elem_of_nil. reflexivity.
Qed.

(** The permission request leaves the world as it is. *)
Lemma registerForPushNotificationsAsync_pure e :
  exists r, forall w, registerForPushNotificationsAsync e w = Some (r, w).
Proof.
  unfold registerForPushNotificationsAsync, bind, getPermissionsAsync,
    requestPermissionsAsync, ret, throw.
  destruct (isDevice e); simpl; [|eauto].
  destruct (getPermissions e) as [[]|]; simpl; eauto;
    destruct (requestPermissions e) as [st|]; simpl; eauto.
Qed.

(** The registration loop: it throws at the first rejection, and the
    triggers accepted before it stay registered. *)
Lemma register_each_run e k ts createdIds w :
  register_each e k ts createdIds w =
    Some (if registration_throws e k ts then Throw
          else Normal (createdIds ++ collected e k ts)%list,
          set_registered (registered w ++ collected_triggers e k ts) w).
Proof.
  revert k createdIds w. induction ts as [|tm rest IH]; intros k createdIds w.
  - simpl. unfold ret, collected. simpl.
    by rewrite !app_nil_r, set_registered_same.
  - simpl. unfold bind, scheduleNotificationAsync, collected. simpl.
    destruct (schedule_res e k tm) as [id|]; simpl.
    + rewrite IH. unfold set_registered, collected. simpl.
      by rewrite <- !app_assoc.
    + by rewrite app_nil_r, set_registered_same.
Qed.

Lemma times_total wake bed i :
  is_Some (split_map_Number wake) -> is_Some (split_map_Number bed) -> 0 < i ->
  is_Some (times wake bed i).
Proof.
  intros [[wakeH wakeM] Hw] [[bedH bedM] Hb] Hi.
  rewrite (times_closed_form wake bed i wakeH wakeM bedH bedM) by done. eauto.
Qed.

(** An enabled invocation is the cancellation step followed by the
    registrations, under the handler of the top level. *)
Lemma scheduleReminders_enabled e u s w w1 ts :
  cancelScheduledNotificationsAndClearStorage e w = Some (Normal tt, w1) ->
  Settings.remindersEnabled s = true ->
  times (wake_string u s) (bed_string u s) (interval s) = Some ts ->
  scheduleReminders e (Some u) (Some s) w =
    try_catch (register_and_save e ts) (ret []) w1.
Proof.
  intros Hc Hen Hts. unfold scheduleReminders, try_catch, bind at 1.
  rewrite Hc, Hen. simpl. unfold bind at 1, lift_option. rewrite Hts.
  reflexivity.
Qed.

Lemma scheduleReminders_disabled e user settings w w1 :
  cancelScheduledNotificationsAndClearStorage e w = Some (Normal tt, w1) ->
  disabled user settings ->
  scheduleReminders e user settings w = Some (Normal [], w1).
Proof.
  intros Hc Hd. unfold scheduleReminders, try_catch, bind. rewrite Hc.
  destruct user as [u|], settings as [s|]; try reflexivity.
  destruct Hd as [?|[?|(s' & [= <-] & Hoff)]]; try discriminate.
  by rewrite Hoff.
Qed.

(** With permission granted, the result and the world of the
    registrations. *)
Lemma register_and_save_granted e ts w1 :
  (forall w0, registerForPushNotificationsAsync e w0 = Some (Normal true, w0)) ->
  try_catch (register_and_save e ts) (ret []) w1 =
    let w2 := set_registered (registered w1 ++ collected_triggers e 0 ts) w1 in
    if registration_throws e 0 ts then Some (Normal [], w2)
    else Some (Normal (collected e 0 ts),
               if save_ok e then set_notif_ids (JArray (collected e 0 ts)) w2 else w2).
Proof.
  intros Hperm. unfold register_and_save, try_catch, bind at 1.
  rewrite Hperm. simpl. unfold bind at 1. rewrite register_each_run.
  destruct (registration_throws e 0 ts); reflexivity.
Qed.




(** Whatever the input, an answer of the model is never a thrown
    exception. *)
Lemma scheduleReminders_no_exception e user settings w c w' :
  scheduleReminders e user settings w = Some (c, w') -> c <> Throw.
Proof.
  unfold scheduleReminders, try_catch.
  destruct (bind _ _ w) as [[[ids|] w2]|]; unfold ret; intros [= <- <-]; done.
Qed.

(** C7. With reminders disabled or no user profile, and the storage and
    cancellation calls succeeding, [scheduleReminders] cancels every
    trigger whose identifier was persisted, leaves the persisted list
    empty and returns the empty list, whatever was persisted before. *)
Theorem scheduleReminders_disabled_clears (e : env) (user : option User.t)
  (settings : option Settings.t) (w : world) :
  cancellation_succeeds e ->
  disabled user settings ->
  exists w' : world,
    scheduleReminders e user settings w = Some (Normal [], w') /\
    notif_ids w' = Some (JArray []) /\
    persisted w' = [] /\
    (forall id : ident, id ∈ persisted w -> id ∉ registered_ids w') /\
    registered w' = filter (fun tr => tr.1 ∉ persisted w) (registered w).
Proof.
  intros Hok Hd.
  eexists. split; [|split; [|split; [|split]]].
  - apply scheduleReminders_disabled; [|done]. by apply cancel_when_succeeds.
  - reflexivity.
  - reflexivity.
  - intros id Hid. unfold registered_ids. simpl.
    intros ([i tm] & -> & Hin)%list_elem_of_fmap.
    apply list_elem_of_filter in Hin as [Hnot _]. by apply Hnot.
  - reflexivity.
Qed.

Lemma scheduleReminders_disabled_clears_witness :
  exists w' : world,
    scheduleReminders (rejecting_after 0) (Some onboarded_user)
      (Some {| Settings.remindersEnabled := false;
               Settings.reminderIntervalMins := Num (Int 120);
               Settings.wakeTime := Some "07:00";
               Settings.bedTime := Some "23:00" |}) two_reminders
      = Some (Normal [], w') /\
    notif_ids w' = Some (JArray []) /\
    persisted w' = [] /\
    (forall id : ident, id ∈ persisted two_reminders -> id ∉ registered_ids w') /\
    registered w' =
      filter (fun tr => tr.1 ∉ persisted two_reminders) (registered two_reminders).
Proof.
  apply scheduleReminders_disabled_clears.
  - repeat split; reflexivity.
  - right. right. eexists. split; reflexivity.
Defined.

(** When a cancellation rejects, the clearing write is skipped: the
    persisted identifiers stay as they were. *)
Example cancel_rejection_keeps_ids :
  cancelScheduledNotificationsAndClearStorage cancel_rejecting two_reminders
  = Some (Normal tt, two_reminders).
Proof. reflexivity. Qed.

(** C1 (amended). If a registration rejects, after any number of accepted
    ones, [scheduleReminders] catches the exception at the top level and
    returns the empty list, not the identifiers collected so far. *)
Theorem scheduleReminders_registration_failure (e : env) (u : User.t)
  (s : Settings.t) (w : world) (ts : list slot) :
  Settings.remindersEnabled s = true ->
  times (wake_string u s) (bed_string u s) (interval s) = Some ts ->
  (forall w0, registerForPushNotificationsAsync e w0 = Some (Normal true, w0)) ->
  registration_throws e 0 ts = true ->
  exists w' : world,
    scheduleReminders e (Some u) (Some s) w = Some (Normal [], w').
Proof.
  intros Hen Hts Hperm Hthrow.
  destruct (cancel_returns e w) as [w1 Hc].
  rewrite (scheduleReminders_enabled e u s w w1 ts) by done.
  rewrite register_and_save_granted by done. rewrite Hthrow. eauto.
Qed.

Lemma scheduleReminders_registration_failure_witness :
  exists w' : world,
    scheduleReminders (rejecting_after 2) (Some onboarded_user)
      (Some initial_settings) two_reminders = Some (Normal [], w').
Proof.
  apply (scheduleReminders_registration_failure (rejecting_after 2)
           onboarded_user initial_settings two_reminders
           (slot_at <$> step_values 420 120 9));
    [reflexivity | reflexivity | intros w0; reflexivity | reflexivity].
Defined.

(** C1 (as stated) fails: the platform accepts two registrations, "a" and
    "b", and rejects the third; the identifiers collected up to that point
    are ["a"; "b"], and [scheduleReminders] returns the empty list. *)
Lemma scheduleReminders_partial_result_counterexample :
  times "07:00" "23:00" 120 = Some (slot_at <$> step_values 420 120 9) /\
  registration_throws (rejecting_after 2) 0 (slot_at <$> step_values 420 120 9) = true /\
  collected (rejecting_after 2) 0 (slot_at <$> step_values 420 120 9) = ["a"; "b"] /\
  fst <$> scheduleReminders (rejecting_after 2) (Some onboarded_user)
            (Some initial_settings) fresh_world = Some (Normal []) /\
  Normal ([] : list ident) <> Normal ["a"; "b"].
Proof. repeat split; try reflexivity. discriminate. Qed.

(** C2 fails on the code: on a fresh device the platform accepts the first
    registration and rejects the second; the invocation completes with the
    trigger "a" registered and an empty persisted list. *)
Theorem scheduleReminders_orphans_trigger :
  mirror fresh_world /\
  scheduleReminders (rejecting_after 1) (Some onboarded_user)
    (Some initial_settings) fresh_world =
    Some (Normal [],
          {| notif_ids := Some (JArray []);
             registered := [ ("a", {| hour := Num (Int 7); minute := Num (Int 0) |}) ] |}) /\
  ~ mirror {| notif_ids := Some (JArray []);
              registered := [ ("a", {| hour := Num (Int 7); minute := Num (Int 0) |}) ] |}.
Proof.
  split; [|split].
  - intros id. reflexivity.
  - reflexivity.
  - intros Hm. specialize (Hm "a"). unfold persisted, registered_ids in Hm. simpl in Hm.
    destruct Hm as [_ Hm]. specialize (Hm (list_elem_of_here _ _)).
    by apply not_elem_of_nil in Hm.
Qed.

(** ** The mirror invariant when no call fails *)

Lemma filter_none {A} (P : A -> Prop) `{!forall x, Decision (P x)} (l : list A) :
  (forall x, x ∈ l -> ~ P x) -> filter P l = [].
Proof.
  induction l as [|x l IH]; intros Hall; [done|].
  rewrite filter_cons_False by (apply Hall; left).
  apply IH. intros y Hy. apply Hall. by right.
Qed.

Lemma mirror_cancelled w :
  mirror w -> filter (fun tr => tr.1 ∉ persisted w) (registered w) = [].
Proof.
  intros Hm. apply filter_none. intros [id tm] Hin Hnot. simpl in Hnot.
  apply Hnot, Hm. unfold registered_ids. apply list_elem_of_fmap.
  by exists (id, tm).
Qed.

Lemma permission_answer e :
  is_Some (getPermissions e) -> is_Some (requestPermissions e) ->
  exists b, forall w, registerForPushNotificationsAsync e w = Some (Normal b, w).
Proof.
  intros [st Hst] [st' Hst'].
  unfold registerForPushNotificationsAsync, bind, getPermissionsAsync,
    requestPermissionsAsync, ret.
  rewrite Hst, Hst'. destruct (isDevice e); simpl; [|eauto].
  destruct st; simpl; eauto.
Qed.

Lemma registration_accepts e k ts :
  (forall k tm, is_Some (schedule_res e k tm)) -> registration_throws e k ts = false.
Proof.
  intros Hs. revert k. induction ts as [|tm rest IH]; intros k; simpl; [done|].
  destruct (Hs k tm) as [id ->]. apply IH.
Qed.

(** Started from a world in which the persisted identifiers mirror the
    registered triggers, an invocation none of whose calls fails ends in
    such a world again, and returns what it persisted. *)
Lemma scheduleReminders_mirror_when_nothing_fails e user settings w :
  supported user settings -> nothing_fails e -> mirror w ->
  exists ids w',
    scheduleReminders e user settings w = Some (Normal ids, w') /\
    mirror w' /\ persisted w' = ids.
Proof.
  intros Hsup (Hcancel & Hsave & Hget & Hreq & Hsched) Hm.
  pose proof (cancel_when_succeeds e w Hcancel) as Hc.
  rewrite (mirror_cancelled w Hm) in Hc.
  set (w1 := {| notif_ids := Some (JArray []); registered := [] |}) in *.
  assert (Hm1 : mirror w1) by (intros id; reflexivity).
  assert (Hoff : disabled user settings ->
                 exists ids w', scheduleReminders e user settings w = Some (Normal ids, w')
                                /\ mirror w' /\ persisted w' = ids).
  { intros Hd. exists [], w1. by rewrite (scheduleReminders_disabled e user settings w w1). }
  destruct user as [u|]; [destruct settings as [s|]|];
    [|apply Hoff; right; by left|apply Hoff; by left].
  destruct (Settings.remindersEnabled s) eqn:Hen;
    [|apply Hoff; right; right; eauto].
  destruct (Hsup u s eq_refl eq_refl Hen) as [Hw Hb].
  destruct (times_total _ _ (interval s) Hw Hb) as [ts Hts];
    [pose proof (interval_ge_15 s); lia|].
  rewrite (scheduleReminders_enabled e u s w w1 ts) by done.
  destruct (permission_answer e Hget Hreq) as [[] Hperm].
  - rewrite register_and_save_granted by done.
    rewrite registration_accepts, Hsave by done. simpl.
    eexists _, _. split; [reflexivity|]. split; [|reflexivity].
    intros id. reflexivity.
  - unfold register_and_save, try_catch, bind. rewrite Hperm. simpl.
    exists [], w1. done.
Qed.

(** Started from such a world, with cancellation working and permission
    granted, a rejected registration ends the invocation with the triggers
    accepted before it registered and nothing persisted: the mirror is
    lost as soon as one registration was accepted. *)
Lemma scheduleReminders_rejection_world e u s w ts :
  cancellation_succeeds e -> mirror w ->
  Settings.remindersEnabled s = true ->
  times (wake_string u s) (bed_string u s) (interval s) = Some ts ->
  (forall w0, registerForPushNotificationsAsync e w0 = Some (Normal true, w0)) ->
  registration_throws e 0 ts = true ->
  scheduleReminders e (Some u) (Some s) w =
    Some (Normal [],
          {| notif_ids := Some (JArray []);
             registered := collected_triggers e 0 ts |}) /\
  (collected_triggers e 0 ts <> [] ->
   ~ mirror {| notif_ids := Some (JArray []);
               registered := collected_triggers e 0 ts |}).
Proof.
  intros Hcancel Hm Hen Hts Hperm Hthrow.
  pose proof (cancel_when_succeeds e w Hcancel) as Hc.
  rewrite (mirror_cancelled w Hm) in Hc.
  split.
  - rewrite (scheduleReminders_enabled e u s w _ ts Hc Hen Hts).
    rewrite register_and_save_granted by done. by rewrite Hthrow.
  - intros Hne Hmirror.
    destruct (collected_triggers e 0 ts) as [|[id tm] rest]; [done|].
    specialize (Hmirror id). unfold persisted, registered_ids in Hmirror.
    simpl in Hmirror. destruct Hmirror as [_ Hback].
    specialize (Hback (list_elem_of_here _ _)). by apply not_elem_of_nil in Hback.
Qed.

(** ** The intake ledger *)

Section ledger.

Variables (u : User.t) (today : string).

Lemma addIntake_nil a :
  addIntake (Some u) today a [] = [ {| date := today; intake := a |} ].
Proof. reflexivity. Qed.

Lemma addIntake_cons a r log :
  addIntake (Some u) today a (r :: log) =
    if decide (date r = today) then add_to a r :: log
    else r :: addIntake (Some u) today a log.
Proof.
  unfold addIntake, findIndex. simpl. case_decide; simpl; [done|].
  destruct (list_find _ log) as [[i y]|]; reflexivity.
Qed.





Lemma dates_addIntake a log :
  date <$> addIntake (Some u) today a log =
    if decide (today ∈ date <$> log) then date <$> log
    else ((date <$> log) ++ [today])%list.
Proof.
  induction log as [|r log IH].
  - rewrite addIntake_nil. rewrite decide_False by apply not_elem_of_nil. done.
  - rewrite addIntake_cons. destruct (decide (date r = today)) as [Hr|Hr].
    + rewrite decide_True by (apply list_elem_of_fmap; exists r; split; [done | left]).
      done.
    + rewrite !fmap_cons, IH.
      destruct (decide (today ∈ date <$> log)) as [Hin|Hin].
      * rewrite decide_True by (by right). done.
      * rewrite decide_False; [done|].
        rewrite not_elem_of_cons. split; [congruence | done].
Qed.

Lemma NoDup_addIntake a log :
  NoDup (date <$> log) -> NoDup (date <$> addIntake (Some u) today a log).
Proof.
  intros Hnd. rewrite dates_addIntake. case_decide as Hin; [done|].
  apply NoDup_app. split; [done|]. split; [|apply NoDup_singleton].
  intros d Hd ->%list_elem_of_singleton. done.
Qed.

Lemma resetToday_addIntake a log :
  resetToday today (addIntake (Some u) today a log) = resetToday today log.
Proof.
  unfold resetToday. induction log as [|r log IH].
  - rewrite addIntake_nil. by rewrite filter_cons_False by (simpl; tauto).
  - rewrite addIntake_cons. case_decide as Hr.
    + rewrite !filter_cons_False by (simpl; tauto). done.
    + rewrite !filter_cons_True by done. by rewrite IH.
Qed.

End ledger.




(** C10. Without a user profile [addIntake] leaves the intake log exactly
    as it is, whatever the amount. *)
Theorem addIntake_without_user (today : string) (amount : Z)
  (intakeLog : list IntakeRecord) :
  addIntake None today amount intakeLog = intakeLog.
Proof. reflexivity. Qed.

(** ** Well-formed times satisfy the premise of the slot sequence *)

Lemma split_colon_two_pairs h1 h2 m1 m2 :
  is_digit h1 = true -> is_digit h2 = true ->
  is_digit m1 = true -> is_digit m2 = true ->
  split_colon (String h1 (String h2 (String ":" (String m1 (String m2 ""))))) =
    [String h1 (String h2 ""); String m1 (String m2 "")].
Proof.
  intros Hh1%digit_not_colon Hh2%digit_not_colon
         Hm1%digit_not_colon Hm2%digit_not_colon.
  simpl. rewrite Hh1, Hh2, Hm1, Hm2. reflexivity.
Qed.

Lemma well_formed_time_parts s :
  well_formed_time s = true ->
  exists h m, split_map_Number s = Some (Num (Int h), Num (Int m)) /\
              0 <= h <= 23 /\ 0 <= m <= 59.
Proof.
  unfold well_formed_time.
  destruct s as [|h1 [|h2 [|c [|m1 [|m2 [|x r]]]]]]; try discriminate.
  cbn [list_ascii_of_string string_of_list_ascii].
  intros [H Hv]%andb_true_iff.
  apply andb_true_iff in H as [H Hm2]. apply andb_true_iff in H as [H Hm1].
  apply andb_true_iff in H as [H Hc]. apply andb_true_iff in H as [Hh1 Hh2].
  destruct (digits_value 0 (String h1 (String h2 ""))) as [h|] eqn:Hh; [|done].
  destruct (digits_value 0 (String m1 (String m2 ""))) as [m|] eqn:Hm; [|done].
  apply andb_true_iff in Hv as [Hh23 Hm59].
  assert (c = ":"%char) as -> by (by apply Ascii.eqb_eq).
  exists h, m. split.
  - unfold split_map_Number. rewrite split_colon_two_pairs by done.
    cbn [lookup list_lookup element].
    unfold Number. rewrite Hh, Hm. reflexivity.
  - apply digits_value_bounds in Hh; [|lia]. apply digits_value_bounds in Hm; [|lia].
    lia.
Qed.

(** For well-formed wake and bed times the wake minutes never exceed the
    normalized bed minutes. *)
Lemma well_formed_times_ordered wake bed :
  well_formed_time wake = true -> well_formed_time bed = true ->
  exists wakeH wakeM bedH bedM,
    split_map_Number wake = Some (wakeH, wakeM) /\
    split_map_Number bed = Some (bedH, bedM) /\
    wakeMinutes wakeH wakeM <= bedMinutes (wakeMinutes wakeH wakeM) bedH bedM.
Proof.
  intros (h & m & Hw & Hh & Hm)%well_formed_time_parts
         (h' & m' & Hb & Hh' & Hm')%well_formed_time_parts.
  exists (Num (Int h)), (Num (Int m)), (Num (Int h')), (Num (Int m')).
  split; [done|]. split; [done|].
  unfold bedMinutes, bedMinutes_init, wakeMinutes, or_num.
  destruct (Z.eqb_spec h 0), (Z.eqb_spec m 0), (Z.eqb_spec h' 0), (Z.eqb_spec m' 0);
    match goal with |- context [?a <=? ?b] => destruct (Z.leb_spec a b) end; lia.
Qed.

(* ===================================================================== *)
(** * Further properties of the reminder routine                         *)
(* ===================================================================== *)

(** ** Storage helpers *)

(** X1. A value written by [saveJson] is what [loadJson] reads back,
    whatever the fallback; a write that fails is swallowed and the older
    item is still the one read; a read that fails gives the fallback. *)
Theorem saveJson_loadJson_round_trip (e : env) (val fallback : json) (w : world) :
  (getItem_ok e = true ->
   (let* _ := saveJson true val in loadJson e fallback) w
     = Some (Normal val, set_notif_ids val w)) /\
  (let* _ := saveJson false val in loadJson e fallback) w = loadJson e fallback w /\
  (getItem_ok e = false ->
   (let* _ := saveJson true val in loadJson e fallback) w
     = Some (Normal fallback, set_notif_ids val w)).
Proof.
  unfold bind, saveJson, loadJson. simpl. split; [|split].
  - by intros ->.
  - reflexivity.
  - by intros ->.
Qed.

(** ** The cancellation step on its own *)

Lemma cancel_each_facts e k ids w :
  notif_ids (cancel_each e k ids w).2 = notif_ids w /\
  registered (cancel_each e k ids w).2 `sublist_of` registered w /\
  (forall tr, tr ∈ registered w -> tr.1 ∉ ids ->
              tr ∈ registered (cancel_each e k ids w).2).
Proof.
  revert k w. induction ids as [|id rest IH]; intros k w; simpl.
  - split; [done|]. split; [done|]. auto.
  - set (w1 := if cancel_ok e k id then remove_trigger id w else w).
    destruct (IH (S k) w1) as (Hn & Hs & Hk).
    destruct (cancel_each e (S k) rest w1) as [ok w2] eqn:Hrun. simpl in *.
    assert (Hn1 : notif_ids w1 = notif_ids w)
      by (subst w1; by destruct (cancel_ok e k id)).
    assert (Hs1 : registered w1 `sublist_of` registered w).
    { subst w1. destruct (cancel_ok e k id); [|done]. simpl. apply sublist_filter. }
    split; [congruence|]. split; [by etrans|].
    intros tr Hin [Hne Hrest]%not_elem_of_cons. apply Hk; [|done].
    subst w1. destruct (cancel_ok e k id); [|done]. simpl.
    apply list_elem_of_filter. done.
Qed.

Lemma cancel_each_resolves e k ids w :
  (cancel_each e k ids w).1 = true <->
  forall i id, ids !! i = Some id -> cancel_ok e (k + i) id = true.
Proof.
  revert k w. induction ids as [|id rest IH]; intros k w; simpl.
  - split; [|done]. intros _ i id Hi. by rewrite lookup_nil in Hi.
  - set (w1 := if cancel_ok e k id then remove_trigger id w else w).
    specialize (IH (S k) w1).
    destruct (cancel_each e (S k) rest w1) as [ok w2]. simpl in *.
    rewrite andb_true_iff, IH. split.
    + intros [H0 Hrest] [|i] id'; simpl.
      * intros [= <-]. by rewrite Nat.add_0_r.
      * intros Hi. rewrite Nat.add_succ_r. by apply Hrest.
    + intros Hall. split.
      * specialize (Hall 0%nat id eq_refl). by rewrite Nat.add_0_r in Hall.
      * intros i id' Hi. specialize (Hall (S i) id' Hi).
        by rewrite Nat.add_succ_r in Hall.
Qed.

(** What the cancellation step does to the world, whatever the
    collaborators do. *)
Lemma cancel_world e w :
  exists w',
    cancelScheduledNotificationsAndClearStorage e w = Some (Normal tt, w') /\
    (notif_ids w' = notif_ids w \/ notif_ids w' = Some (JArray [])) /\
    registered w' `sublist_of` registered w /\
    (forall tr, tr ∈ registered w -> tr.1 ∉ persisted w -> tr ∈ registered w').
Proof.
  unfold cancelScheduledNotificationsAndClearStorage, try_catch, bind, loadJson,
    saveJson, Promise_all_cancel.
  assert (Hids : forall l,
            (if getItem_ok e then default (JArray []) (notif_ids w) else JArray [])
              = JArray l ->
            forall id : ident, id ∉ persisted w -> id ∉ l).
  { intros l Hl id Hnot. unfold persisted in Hnot.
    destruct (getItem_ok e); [|injection Hl as <-; apply not_elem_of_nil].
    destruct (notif_ids w) as [[l'|]|]; simpl in Hl;
      [by injection Hl as <- | done | injection Hl as <-; apply not_elem_of_nil]. }
  destruct (if getItem_ok e then default (JArray []) (notif_ids w) else JArray [])
    as [l|] eqn:Hload.
  - destruct (cancel_each_facts e 0 l w) as (Hn & Hs & Hk).
    specialize (Hids l eq_refl).
    destruct (cancel_each e 0 l w) as [[] w1]; simpl in *.
    + exists (if clear_ok e then set_notif_ids (JArray []) w1 else w1).
      split; [done|].
      destruct (clear_ok e); simpl; (split; [auto|]); (split; [done|]);
        intros tr Hin Hnot; apply Hk; auto.
    + exists w1. split; [done|]. split; [by left|]. split; [done|].
      intros tr Hin Hnot. apply Hk; auto.
  - simpl. exists (if clear_ok e then set_notif_ids (JArray []) w else w).
    split; [done|].
    destruct (clear_ok e); simpl; (split; [auto|]); (split; [done|]); auto.
Qed.

(** X2. [cancelScheduledNotificationsAndClearStorage] never lets an
    exception out, whatever rejects: it completes, registers no trigger
    (the triggers left are a sublist of those there before), and leaves the
    stored list either as it was or empty. *)
Theorem cancel_is_safe (e : env) (w : world) :
  exists w' : world,
    cancelScheduledNotificationsAndClearStorage e w = Some (Normal tt, w') /\
    (notif_ids w' = notif_ids w \/ notif_ids w' = Some (JArray [])) /\
    registered w' `sublist_of` registered w.
Proof.
  destruct (cancel_world e w) as (w' & Hrun & Hn & Hs & _). eauto.
Qed.

(** X3. When the stored list is read and one of its cancellations
    rejects, the clearing write is skipped: the stored list stays exactly
    as it was, although the other cancellations have been carried out. *)
Theorem cancel_rejection_skips_clearing (e : env) (w : world)
  (l : list ident) (i : nat) (id : ident) :
  getItem_ok e = true ->
  notif_ids w = Some (JArray l) ->
  l !! i = Some id ->
  cancel_ok e i id = false ->
  exists w' : world,
    cancelScheduledNotificationsAndClearStorage e w = Some (Normal tt, w') /\
    notif_ids w' = Some (JArray l) /\
    (forall j id', l !! j = Some id' -> cancel_ok e j id' = true ->
                   id' ∉ registered_ids w').
Proof.
  intros Hget Hstored Hi Hrej.
  unfold cancelScheduledNotificationsAndClearStorage, try_catch, bind, loadJson.
  rewrite Hget, Hstored. simpl. unfold Promise_all_cancel.
  pose proof (cancel_each_resolves e 0 l w) as Hres.
  destruct (cancel_each_facts e 0 l w) as (Hn & _ & _).
  assert (Hgone : forall (ids : list ident) k w0 j id',
            ids !! j = Some id' -> cancel_ok e (k + j) id' = true ->
            id' ∉ registered_ids (cancel_each e k ids w0).2).
  { clear. induction ids as [|a rest IH]; intros k w0 j id' Hj Hok; [done|].
    simpl. set (w1 := if cancel_ok e k a then remove_trigger a w0 else w0).
    destruct j as [|j]; simpl in Hj.
    - injection Hj as ->. rewrite Nat.add_0_r in Hok.
      destruct (cancel_each_facts e (S k) rest w1) as (_ & Hs & _).
      destruct (cancel_each e (S k) rest w1) as [ok w2]. simpl in *.
      intros Hin. unfold registered_ids in Hin.
      apply list_elem_of_fmap in Hin as ([i' tm] & -> & Hin). simpl in *.
      assert (Hin1 : (i', tm) ∈ registered w1) by (by eapply elem_of_sublist).
      subst w1. rewrite Hok in Hin1. simpl in Hin1.
      apply list_elem_of_filter in Hin1 as [Hne _]. by apply Hne.
    - specialize (IH (S k) w1 j id' Hj).
      replace (S k + j)%nat with (k + S j)%nat in IH by lia. specialize (IH Hok).
      by destruct (cancel_each e (S k) rest w1) as [ok w2]. }
  specialize (Hgone l 0%nat w).
  destruct (cancel_each e 0 l w) as [ok w1]. simpl in *.
  destruct ok.
  - destruct Hres as [Hall _]. specialize (Hall eq_refl i id Hi). simpl in Hall.
    congruence.
  - exists w1. split; [done|]. split; [congruence|].
    intros j id' Hj Hok. by apply (Hgone j id').
Qed.

Lemma cancel_rejection_skips_clearing_witness :
  exists w' : world,
    cancelScheduledNotificationsAndClearStorage first_cancel_rejecting two_reminders
      = Some (Normal tt, w') /\
    notif_ids w' = Some (JArray ["r1"; "r2"]) /\
    (forall j id', ["r1"; "r2"] !! j = Some id' ->
                   cancel_ok first_cancel_rejecting j id' = true ->
                   id' ∉ registered_ids w').
Proof.
  apply (cancel_rejection_skips_clearing first_cancel_rejecting two_reminders
           ["r1"; "r2"] 0 "r1"); reflexivity.
Defined.

(** In that run the second reminder is cancelled, the first is not, and
    both identifiers stay persisted. *)
Example cancel_first_rejection_run :
  cancelScheduledNotificationsAndClearStorage first_cancel_rejecting two_reminders
  = Some (Normal tt,
          {| notif_ids := Some (JArray ["r1"; "r2"]);
             registered := [ ("r1", {| hour := Num (Int 7); minute := Num (Int 0) |}) ] |}).
Proof. reflexivity. Qed.

(** X4. When its calls succeed the cancellation step is idempotent:
    running it a second time changes nothing more. *)
Theorem cancel_twice (e : env) (w : world) :
  cancellation_succeeds e ->
  (let* _ := cancelScheduledNotificationsAndClearStorage e in
   cancelScheduledNotificationsAndClearStorage e) w
  = cancelScheduledNotificationsAndClearStorage e w.
Proof.
  intros Hok. unfold bind at 1. rewrite (cancel_when_succeeds e w Hok).
  rewrite (cancel_when_succeeds e _ Hok). unfold persisted at 1. simpl.
  by rewrite filter_not_elem_of_nil.
Qed.

Lemma cancel_twice_witness :
  (let* _ := cancelScheduledNotificationsAndClearStorage accepting in
   cancelScheduledNotificationsAndClearStorage accepting) with_stray_trigger
  = cancelScheduledNotificationsAndClearStorage accepting with_stray_trigger.
Proof. apply cancel_twice. repeat split; reflexivity. Defined.

(** ** The permission request *)

(** X5. [registerForPushNotificationsAsync] answers [true] exactly when it
    runs on a device and the permission is granted, either already or by
    the request it then makes; off a device it answers [false] without
    asking, so nothing can reject; in no case does it touch the stored
    list or the triggers. *)
Theorem registerForPushNotificationsAsync_granted (e : env) (w : world) :
  (registerForPushNotificationsAsync e w = Some (Normal true, w) <->
   isDevice e = true /\
   (getPermissions e = Some granted \/
    (exists st, getPermissions e = Some st /\ st <> granted /\
                requestPermissions e = Some granted))) /\
  (isDevice e = false ->
   registerForPushNotificationsAsync e w = Some (Normal false, w)) /\
  (forall c w', registerForPushNotificationsAsync e w = Some (c, w') -> w' = w).
Proof.
  unfold registerForPushNotificationsAsync, bind, getPermissionsAsync,
    requestPermissionsAsync, ret, throw.
  split; [split|split].
  - intros Hrun. destruct (isDevice e); simpl in Hrun; [|discriminate].
    split; [done|].
    destruct (getPermissions e) as [st|]; simpl in Hrun; [|discriminate].
    destruct st; simpl in Hrun; [by left| |];
      (right; eexists; split; [done|]; split; [done|]);
      (destruct (requestPermissions e) as [[]|]; simpl in Hrun; by try discriminate).
  - intros [-> [->|(st & -> & Hne & Hreq)]]; simpl; [done|].
    destruct st; [done| |]; simpl; by rewrite Hreq.
  - by intros ->.
  - intros c w'. destruct (isDevice e); simpl; [|by intros [= _ <-]].
    destruct (getPermissions e) as [[]|]; simpl; try (by intros [= _ <-]);
      destruct (requestPermissions e) as [[]|]; simpl; by intros [= _ <-].
Qed.

(** ** Invocations that register nothing *)

(** X6. With no profile, no settings or reminders switched off,
    [scheduleReminders] is the cancellation step and nothing else: it
    returns the empty list and leaves the world the cancellation step
    leaves, whatever the collaborators do. *)
Theorem scheduleReminders_disabled_is_cancel (e : env) (user : option User.t)
  (settings : option Settings.t) (w : world) :
  disabled user settings ->
  scheduleReminders e user settings w =
    (fun r => (Normal [], r.2)) <$> cancelScheduledNotificationsAndClearStorage e w.
Proof.
  intros Hd. destruct (cancel_returns e w) as [w1 Hc].
  rewrite (scheduleReminders_disabled e user settings w w1 Hc Hd). by rewrite Hc.
Qed.

Lemma scheduleReminders_disabled_is_cancel_witness :
  scheduleReminders cancel_rejecting None (Some initial_settings) two_reminders =
    (fun r => (Normal [], r.2)) <$>
      cancelScheduledNotificationsAndClearStorage cancel_rejecting two_reminders.
Proof. apply scheduleReminders_disabled_is_cancel. by left. Defined.



(** ** Invocations that register every slot *)

Lemma collected_when_accepted e k ts :
  registration_throws e k ts = false ->
  length (collected e k ts) = length ts /\
  collected_triggers e k ts = zip (collected e k ts) ts.
Proof.
  unfold collected. revert k. induction ts as [|tm rest IH]; intros k; simpl; [done|].
  destruct (schedule_res e k tm) as [id|]; [|done].
  intros Hrest. destruct (IH (S k) Hrest) as [Hlen Hzip].
  split; [simpl; f_equal; exact Hlen | simpl; f_equal; exact Hzip].
Qed.

(** X8. When the permission is granted and every registration is
    accepted, an enabled invocation returns one identifier per planned
    slot, in slot order; each is registered with its slot behind the
    triggers the cancellation step left, and the list returned is the list
    persisted when the final write succeeds. *)
Theorem scheduleReminders_registers_every_slot (e : env) (u : User.t)
  (s : Settings.t) (w w1 : world) (ts : list slot) :
  Settings.remindersEnabled s = true ->
  times (wake_string u s) (bed_string u s) (interval s) = Some ts ->
  cancelScheduledNotificationsAndClearStorage e w = Some (Normal tt, w1) ->
  (forall w0, registerForPushNotificationsAsync e w0 = Some (Normal true, w0)) ->
  registration_throws e 0 ts = false ->
  exists (ids : list ident) (w' : world),
    scheduleReminders e (Some u) (Some s) w = Some (Normal ids, w') /\
    length ids = length ts /\
    registered w' = (registered w1 ++ zip ids ts)%list /\
    (save_ok e = true -> persisted w' = ids) /\
    (save_ok e = false -> notif_ids w' = notif_ids w1).
Proof.
  intros Hen Hts Hc Hperm Hacc.
  destruct (collected_when_accepted e 0 ts Hacc) as [Hlen Hzip].
  rewrite (scheduleReminders_enabled e u s w w1 ts Hc Hen Hts).
  rewrite register_and_save_granted by done. rewrite Hacc. cbv zeta.
  eexists _, _. split; [reflexivity|]. split; [done|].
  destruct (save_ok e); simpl; rewrite Hzip; done.
Qed.

Lemma scheduleReminders_registers_every_slot_witness :
  exists (ids : list ident) (w' : world),
    scheduleReminders accepting (Some onboarded_user) (Some initial_settings)
      with_stray_trigger = Some (Normal ids, w') /\
    length ids = length (slot_at <$> step_values 420 120 9) /\
    registered w' =
      (registered {| notif_ids := Some (JArray []);
                     registered := [ ("zz", {| hour := Num (Int 8); minute := Num (Int 0) |}) ] |}
       ++ zip ids (slot_at <$> step_values 420 120 9))%list /\
    (save_ok accepting = true -> persisted w' = ids) /\
    (save_ok accepting = false ->
     notif_ids w' =
       notif_ids {| notif_ids := Some (JArray []);
                    registered := [ ("zz", {| hour := Num (Int 8); minute := Num (Int 0) |}) ] |}).
Proof.
  apply (scheduleReminders_registers_every_slot accepting onboarded_user
           initial_settings with_stray_trigger);
    [reflexivity | reflexivity | reflexivity | intros w0; reflexivity | reflexivity].
Defined.

(** X9. Two invocations in a row, neither with a failing call and both
    with the permission granted, started from a world whose persisted
    identifiers mirror its triggers: the triggers registered at the end are
    exactly those of the second invocation, and they are what is persisted
    and returned. Nothing of the first invocation is left. *)
Theorem scheduleReminders_twice_replaces (e1 e2 : env) (u : User.t)
  (s : Settings.t) (w : world) (ts : list slot) :
  Settings.remindersEnabled s = true ->
  times (wake_string u s) (bed_string u s) (interval s) = Some ts ->
  nothing_fails e1 -> nothing_fails e2 ->
  (forall w0, registerForPushNotificationsAsync e2 w0 = Some (Normal true, w0)) ->
  mirror w ->
  exists (ids1 : list ident) (w1 w2 : world),
    scheduleReminders e1 (Some u) (Some s) w = Some (Normal ids1, w1) /\
    scheduleReminders e2 (Some u) (Some s) w1 =
      Some (Normal (collected e2 0 ts), w2) /\
    registered w2 = zip (collected e2 0 ts) ts /\
    persisted w2 = collected e2 0 ts /\
    length (collected e2 0 ts) = length ts.
Proof.
  intros Hen Hts Hf1 Hf2 Hperm Hm.
  assert (Hsup : supported (Some u) (Some s)).
  { intros u' s' [= <-] [= <-] _.
    unfold times in Hts.
    destruct (split_map_Number (wake_string u s)) as [[? ?]|]; [|done].
    destruct (split_map_Number (bed_string u s)) as [[? ?]|]; [|done]. eauto. }
  destruct (scheduleReminders_mirror_when_nothing_fails e1 (Some u) (Some s) w
              Hsup Hf1 Hm) as (ids1 & w1 & Hrun1 & Hm1 & _).
  destruct Hf2 as (Hcancel & Hsave & _ & _ & Hsched).
  pose proof (cancel_when_succeeds e2 w1 Hcancel) as Hc.
  rewrite (mirror_cancelled w1 Hm1) in Hc.
  destruct (collected_when_accepted e2 0 ts (registration_accepts e2 0 ts Hsched))
    as [Hlen Hzip].
  exists ids1, w1. eexists. split; [done|].
  rewrite (scheduleReminders_enabled e2 u s w1 _ ts Hc Hen Hts).
  rewrite register_and_save_granted by done.
  rewrite registration_accepts, Hsave by done. cbv zeta.
  split; [reflexivity|]. simpl. rewrite Hzip. done.
Qed.

Lemma scheduleReminders_twice_replaces_witness :
  exists (ids1 : list ident) (w1 w2 : world),
    scheduleReminders (accepting_with "m") (Some onboarded_user)
      (Some initial_settings) two_reminders = Some (Normal ids1, w1) /\
    scheduleReminders accepting (Some onboarded_user) (Some initial_settings) w1 =
      Some (Normal (collected accepting 0 (slot_at <$> step_values 420 120 9)), w2) /\
    registered w2 =
      zip (collected accepting 0 (slot_at <$> step_values 420 120 9))
          (slot_at <$> step_values 420 120 9) /\
    persisted w2 = collected accepting 0 (slot_at <$> step_values 420 120 9) /\
    length (collected accepting 0 (slot_at <$> step_values 420 120 9)) =
      length (slot_at <$> step_values 420 120 9).
Proof.
  apply (scheduleReminders_twice_replaces (accepting_with "m") accepting
           onboarded_user initial_settings two_reminders).
  - reflexivity.
  - reflexivity.
  - repeat split; try reflexivity; simpl; eauto.
  - repeat split; try reflexivity; simpl; eauto.
  - intros w0. reflexivity.
  - intros id. reflexivity.
Defined.


(** ** What an invocation leaves alone *)

Lemma register_and_save_world e ts w1 :
  exists ids extra w',
    try_catch (register_and_save e ts) (ret []) w1 = Some (Normal ids, w') /\
    registered w' = (registered w1 ++ extra)%list.
Proof.
  destruct (registerForPushNotificationsAsync_pure e) as [r Hr].
  unfold register_and_save, try_catch, bind at 1. rewrite Hr.
  destruct r as [[]|]; simpl; unfold ret;
    try (exists [], [], w1; by rewrite app_nil_r).
  unfold bind at 1. rewrite register_each_run.
  destruct (registration_throws e 0 ts); simpl; unfold bind, saveJson, ret;
    [|destruct (save_ok e)]; eexists _, (collected_triggers e 0 ts), _; split; done.
Qed.

Lemma scheduleReminders_world e user settings w c w' :
  scheduleReminders e user settings w = Some (c, w') ->
  exists w1 extra,
    cancelScheduledNotificationsAndClearStorage e w = Some (Normal tt, w1) /\
    registered w' = (registered w1 ++ extra)%list.
Proof.
  intros Hrun. destruct (cancel_returns e w) as [w1 Hc]. exists w1.
  assert (Hoff : disabled user settings -> exists extra,
            cancelScheduledNotificationsAndClearStorage e w = Some (Normal tt, w1) /\
            registered w' = (registered w1 ++ extra)%list).
  { intros Hd. rewrite (scheduleReminders_disabled e user settings w w1 Hc Hd) in Hrun.
    injection Hrun as <- <-. exists []. by rewrite app_nil_r. }
  destruct user as [u|]; [destruct settings as [s|]|];
    [|apply Hoff; right; by left|apply Hoff; by left].
  destruct (Settings.remindersEnabled s) eqn:Hen;
    [|apply Hoff; right; right; eauto].
  destruct (times (wake_string u s) (bed_string u s) (interval s)) as [ts|] eqn:Hts.
  - rewrite (scheduleReminders_enabled e u s w w1 ts Hc Hen Hts) in Hrun.
    destruct (register_and_save_world e ts w1) as (ids & extra & w2 & Hrun2 & Hreg).
    rewrite Hrun2 in Hrun. injection Hrun as <- <-. eauto.
  - unfold scheduleReminders, try_catch, bind at 1 in Hrun.
    rewrite Hc, Hen in Hrun. simpl in Hrun.
    unfold bind at 1, lift_option in Hrun. by rewrite Hts in Hrun.
Qed.

(** X10. [scheduleReminders] never removes a trigger whose identifier is
    not in the persisted list: whatever the inputs and the collaborators,
    such a trigger is still registered afterwards. Triggers the app has
    lost track of are therefore never cleaned up. *)
Theorem scheduleReminders_keeps_unpersisted (e : env) (user : option User.t)
  (settings : option Settings.t) (w : world) (c : completion (list ident))
  (w' : world) :
  scheduleReminders e user settings w = Some (c, w') ->
  forall tr : ident * slot,
    tr ∈ registered w -> tr.1 ∉ persisted w -> tr ∈ registered w'.
Proof.
  intros Hrun tr Hin Hnot.
  destruct (scheduleReminders_world e user settings w c w' Hrun)
    as (w1 & extra & Hc & ->).
  destruct (cancel_world e w) as (w1' & Hc' & _ & _ & Hkeep).
  rewrite Hc in Hc'. injection Hc' as <-.
  apply elem_of_app. left. by apply Hkeep.
Qed.

Lemma scheduleReminders_keeps_unpersisted_witness :
  exists (c : completion (list ident)) (w' : world),
    scheduleReminders accepting (Some onboarded_user) (Some initial_settings)
      with_stray_trigger = Some (c, w') /\
    ("zz", {| hour := Num (Int 8); minute := Num (Int 0) |}) ∈ registered w'.
Proof.
  eexists _, _. split; [reflexivity|].
  eapply (scheduleReminders_keeps_unpersisted accepting (Some onboarded_user)
            (Some initial_settings) with_stray_trigger).
  - reflexivity.
  - right. left.
  - intros Hin. repeat (apply elem_of_cons in Hin as [Hin|Hin]; [discriminate|]).
    by apply elem_of_nil in Hin.
Defined.

(** ** Bounds and edges of the planning *)

Lemma well_formed_minutes wake bed :
  well_formed_time wake = true -> well_formed_time bed = true ->
  exists wakeH wakeM bedH bedM,
    split_map_Number wake = Some (wakeH, wakeM) /\
    split_map_Number bed = Some (bedH, bedM) /\
    0 <= wakeMinutes wakeH wakeM /\
    0 < bedMinutes (wakeMinutes wakeH wakeM) bedH bedM - wakeMinutes wakeH wakeM <= 1440.
Proof.
  intros (h & m & Hw & Hh & Hm)%well_formed_time_parts
         (h' & m' & Hb & Hh' & Hm')%well_formed_time_parts.
  exists (Num (Int h)), (Num (Int m)), (Num (Int h')), (Num (Int m')).
  split; [done|]. split; [done|].
  unfold bedMinutes, bedMinutes_init, wakeMinutes, or_num.
  destruct (Z.eqb_spec h 0), (Z.eqb_spec m 0), (Z.eqb_spec h' 0), (Z.eqb_spec m' 0);
    match goal with |- context [?a <=? ?b] => destruct (Z.leb_spec a b) end; lia.
Qed.

(** X11. For well-formed wake and bed times and any settings the plan
    holds at least one and at most 97 slots: the window is at most a day
    and the interval at least 15 minutes. *)
Theorem times_between_1_and_97 (wake bed : string) (s : Settings.t) :
  well_formed_time wake = true -> well_formed_time bed = true ->
  exists ts : list slot,
    times wake bed (interval s) = Some ts /\ (1 <= length ts <= 97)%nat.
Proof.
  intros Hw Hb.
  destruct (well_formed_minutes wake bed Hw Hb)
    as (wakeH & wakeM & bedH & bedM & Hpw & Hpb & Hwm & Hwin).
  pose proof (interval_ge_15 s) as Hi.
  rewrite (times_closed_form wake bed (interval s) wakeH wakeM bedH bedM) by (done || lia).
  cbv zeta.
  set (wm := wakeMinutes wakeH wakeM) in *.
  set (bm := bedMinutes wm bedH bedM) in *.
  assert (Hn : Z.of_nat (steps wm bm (interval s)) = slot_count_spec wm bm (interval s))
    by (apply steps_spec; lia).
  unfold slot_count_spec in Hn.
  assert (0 <= (bm - wm) / interval s) by (apply Z.div_pos; lia).
  assert ((bm - wm) / interval s <= 96) by (apply Z.div_le_upper_bound; lia).
  assert (Hlen : length (slot_at <$> step_values wm (interval s) (steps wm bm (interval s)))
                 = steps wm bm (interval s))
    by (rewrite length_fmap; apply step_values_length).
  rewrite Hlen, bool_decide_eq_false_2 by lia.
  eexists. split; [reflexivity|]. rewrite Hlen. lia.
Qed.

Lemma times_between_1_and_97_witness :
  exists ts : list slot,
    times "07:00" "07:00" (interval (with_interval initial_settings (Num (Int 15))))
      = Some ts /\ (1 <= length ts <= 97)%nat.
Proof. apply times_between_1_and_97; reflexivity. Defined.

(** The bound is reached: equal wake and bed times with the smallest
    interval give 97 slots. *)
Example times_97_slots :
  length <$> times "07:00" "07:00" 15 = Some 97%nat.
Proof. reflexivity. Qed.

Lemma digits_value_two m1 m2 :
  is_digit m1 = true -> is_digit m2 = true ->
  exists mm, digits_value 0 (String m1 (String m2 "")) = Some mm /\ 0 <= mm <= 99.
Proof.
  intros H1 H2. simpl. rewrite H1, H2. eexists. split; [reflexivity|].
  unfold is_digit in H1, H2.
  apply andb_true_iff in H1 as [?%N.leb_le ?%N.leb_le].
  apply andb_true_iff in H2 as [?%N.leb_le ?%N.leb_le]. lia.
Qed.

Lemma split_map_Number_hhmm h1 h2 m1 m2 hh mm :
  is_digit h1 = true -> is_digit h2 = true ->
  is_digit m1 = true -> is_digit m2 = true ->
  digits_value 0 (String h1 (String h2 "")) = Some hh ->
  digits_value 0 (String m1 (String m2 "")) = Some mm ->
  split_map_Number (hhmm h1 h2 m1 m2) = Some (Num (Int hh), Num (Int mm)).
Proof.
  intros Hh1 Hh2 Hm1 Hm2 Hhh Hmm. unfold split_map_Number, hhmm.
  rewrite split_colon_two_pairs by done. cbn [lookup list_lookup element].
  unfold Number. by rewrite Hhh, Hmm.
Qed.

(** X12. An hour written "00" is falsy and so replaced by the default: a
    wake time 00:mm is planned exactly as 07:mm, and a bed time 00:mm
    exactly as 23:mm, for every two-digit mm, every other time and every
    interval. *)
Theorem midnight_hour_is_defaulted (m1 m2 : ascii) :
  is_digit m1 = true -> is_digit m2 = true ->
  (forall (bed : string) (i : Z),
      times (hhmm "0" "0" m1 m2) bed i = times (hhmm "0" "7" m1 m2) bed i) /\
  (forall (wake : string) (i : Z),
      times wake (hhmm "0" "0" m1 m2) i = times wake (hhmm "2" "3" m1 m2) i).
Proof.
  intros H1 H2. destruct (digits_value_two m1 m2 H1 H2) as (mm & Hmm & Hrange).
  assert (H00 : split_map_Number (hhmm "0" "0" m1 m2) = Some (Num (Int 0), Num (Int mm)))
    by (by apply split_map_Number_hhmm).
  assert (H07 : split_map_Number (hhmm "0" "7" m1 m2) = Some (Num (Int 7), Num (Int mm)))
    by (by apply split_map_Number_hhmm).
  assert (H23 : split_map_Number (hhmm "2" "3" m1 m2) = Some (Num (Int 23), Num (Int mm)))
    by (by apply split_map_Number_hhmm).
  split.
  - intros bed i.
    apply (times_same_wake_minutes _ _ bed i _ _ _ _ H00 H07); [reflexivity|].
    unfold wakeMinutes, or_num. simpl. destruct (mm =? 0); lia.
  - intros wake i.
    apply (times_same_bed_minutes wake _ _ i _ _ _ _ H00 H23). reflexivity.
Qed.

Lemma midnight_hour_is_defaulted_witness :
  (forall (bed : string) (i : Z), times "00:30" bed i = times "07:30" bed i) /\
  (forall (wake : string) (i : Z), times wake "00:30" i = times wake "23:30" i).
Proof. apply (midnight_hour_is_defaulted "3" "0"); reflexivity. Defined.

(** ** The effect that runs the routine, and clearing the data *)

Lemma reminders_effect_run e0 e user s w ok :
  (forall w0, registerForPushNotificationsAsync e0 w0 = Some (Normal ok, w0)) ->
  reminders_effect e0 e user s w =
    (fun r => (Normal ok, r.2)) <$> scheduleReminders e user (Some s) w.
Proof.
  intros Hperm. unfold reminders_effect, bind at 1. rewrite Hperm.
  destruct (Settings.remindersEnabled s) eqn:Hen.
  - unfold bind.
    destruct (scheduleReminders e user (Some s) w) as [[[ids|] w']|] eqn:Hrun;
      [done| |done].
    by apply scheduleReminders_no_exception in Hrun.
  - destruct (cancel_returns e w) as [w1 Hc].
    rewrite (scheduleReminders_disabled e user (Some s) w w1 Hc)
      by (right; right; eauto).
    unfold bind. by rewrite Hc.
Qed.

(** X13. The effect of [AppProvider] has no handler: when its own
    permission request rejects, it stops with that exception before
    cancelling or scheduling anything, even when reminders have just been
    switched off; the stored list and the triggers stay as they were. *)
Theorem reminders_effect_unhandled_rejection (e0 e : env) (user : option User.t)
  (s : Settings.t) (w : world) :
  isDevice e0 = true ->
  (getPermissions e0 = None \/
   exists st, getPermissions e0 = Some st /\ st <> granted /\
              requestPermissions e0 = None) ->
  reminders_effect e0 e user s w = Some (Throw, w).
Proof.
  intros Hdev Hrej.
  unfold reminders_effect, bind at 1, registerForPushNotificationsAsync.
  rewrite Hdev. simpl. unfold bind at 1, getPermissionsAsync.
  destruct Hrej as [->|(st & -> & Hne & Hreq)]; [done|].
  unfold ret at 1. unfold bind at 1, requestPermissionsAsync. rewrite Hreq.
  by destruct st.
Qed.

Lemma reminders_effect_unhandled_rejection_witness :
  reminders_effect rejecting_everything accepting (Some onboarded_user)
    (with_interval {| Settings.remindersEnabled := false;
                      Settings.reminderIntervalMins := Num (Int 120);
                      Settings.wakeTime := None; Settings.bedTime := None |}
       (Num (Int 120))) two_reminders
  = Some (Throw, two_reminders).
Proof. apply reminders_effect_unhandled_rejection; [reflexivity | by left]. Defined.

(** X14. When its own permission request completes, the effect does to
    the world exactly what [scheduleReminders] does, in both of its
    branches, and hands the answer of the request to [setNotifReady]; in
    particular it raises nothing. *)
Theorem reminders_effect_is_scheduleReminders (e0 e : env)
  (user : option User.t) (s : Settings.t) (w : world) (ok : bool) :
  (forall w0, registerForPushNotificationsAsync e0 w0 = Some (Normal ok, w0)) ->
  reminders_effect e0 e user s w =
    (fun r => (Normal ok, r.2)) <$> scheduleReminders e user (Some s) w.
Proof. apply reminders_effect_run. Qed.

Lemma reminders_effect_is_scheduleReminders_witness :
  reminders_effect denying accepting (Some onboarded_user) initial_settings
    two_reminders =
    (fun r => (Normal false, r.2)) <$>
      scheduleReminders accepting (Some onboarded_user) (Some initial_settings)
        two_reminders.
Proof.
  apply reminders_effect_is_scheduleReminders. intros w0. reflexivity.
Defined.

Lemma cancel_nothing_stored e r :
  cancelScheduledNotificationsAndClearStorage e {| notif_ids := None; registered := r |}
  = Some (Normal tt,
          {| notif_ids := if clear_ok e then Some (JArray []) else None;
             registered := r |}).
Proof.
  unfold cancelScheduledNotificationsAndClearStorage, try_catch, bind, loadJson,
    saveJson, Promise_all_cancel.
  destruct (getItem_ok e), (clear_ok e); reflexivity.
Qed.

(** X15. Clearing all data wipes the stored identifiers before anything
    is cancelled: whatever the collaborators do, the run of the effect
    that follows (no user any more) cancels nothing, and every trigger
    registered before the clearing is still registered. *)
Theorem clearAllData_leaves_triggers (st : app_state) (e0 e : env)
  (settings : Settings.t) (w : world) :
  exists (st' : app_state) (w1 : world),
    clearAllData true st w = Some (Normal st', w1) /\
    st_user st' = None /\ st_intakeLog st' = [] /\ notif_ids w1 = None /\
    exists (c : completion bool) (w2 : world),
      reminders_effect e0 e (st_user st') settings w1 = Some (c, w2) /\
      registered w2 = registered w.
Proof.
  eexists _, _. split; [reflexivity|]. simpl. split; [done|]. split; [done|].
  split; [done|].
  destruct (registerForPushNotificationsAsync_pure e0) as [[ok|] Hr].
  - rewrite (reminders_effect_run e0 e None settings _ ok Hr).
    rewrite (scheduleReminders_disabled e None (Some settings) _ _
               (cancel_nothing_stored e (registered w))) by (by left).
    simpl. eauto.
  - unfold reminders_effect, bind at 1. rewrite Hr. eauto.
Qed.

(* ===================================================================== *)
(** * Further properties of the intake ledger                            *)
(* ===================================================================== *)

Section ledger_more.

Variables (u : User.t) (today : string).

Lemma find_date_cons d r log :
  find_date d (r :: log) = if decide (date r = d) then Some r else find_date d log.
Proof.
  unfold find_date. simpl. case_decide; [done|].
  by destruct (list_find _ log) as [[i y]|].
Qed.

(** The first record of a date after an addition. *)
Lemma find_date_addIntake a d log :
  find_date d (addIntake (Some u) today a log) =
    if decide (d = today)
    then Some (match find_date today log with
               | Some r => add_to a r
               | None => {| date := today; intake := a |}
               end)
    else find_date d log.
Proof.
  induction log as [|r log IH].
  - rewrite addIntake_nil, find_date_cons. simpl.
    destruct (decide (today = d)), (decide (d = today)); done.
  - rewrite addIntake_cons. destruct (decide (date r = today)) as [Hr|Hr].
    + rewrite !find_date_cons. simpl.
      destruct (decide (d = today)) as [->|Hd].
      * by rewrite !decide_True.
      * by rewrite !decide_False by congruence.
    + rewrite !find_date_cons, IH.
      destruct (decide (d = today)) as [->|Hd].
      * by rewrite !decide_False.
      * done.
Qed.

Lemma shown_intake_addIntake a d log :
  shown_intake d (addIntake (Some u) today a log) =
    shown_intake d log + (if decide (d = today) then a else 0).
Proof.
  unfold shown_intake. rewrite find_date_addIntake.
  destruct (decide (d = today)) as [->|Hd]; [|lia].
  destruct (find_date today log); simpl; lia.
Qed.

Lemma find_date_resetToday d log :
  find_date d (resetToday today log) =
    if decide (d = today) then None else find_date d log.
Proof.
  unfold resetToday. induction log as [|r log IH].
  - by destruct (decide (d = today)).
  - rewrite filter_cons. destruct (decide (date r <> today)) as [Hr|Hr].
    + rewrite !find_date_cons, IH.
      destruct (decide (d = today)) as [->|Hd]; [by rewrite decide_False|done].
    + rewrite IH, find_date_cons.
      destruct (decide (d = today)) as [->|Hd]; [done|].
      rewrite decide_False; [done|]. intros Heq. apply Hr. congruence.
Qed.

(** X16. [addIntake] keeps the log at one record per date, never drops a
    date, and lengthens the log by one record at most. *)
Theorem addIntake_keeps_one_record_per_date (a : Z) (log : list IntakeRecord) :
  NoDup (date <$> log) ->
  NoDup (date <$> addIntake (Some u) today a log) /\
  (forall d, d ∈ date <$> log -> d ∈ date <$> addIntake (Some u) today a log) /\
  (length log <= length (addIntake (Some u) today a log) <= S (length log))%nat.
Proof.
  intros Hnd. split; [by apply NoDup_addIntake|].
  pose proof (dates_addIntake u today a log) as Hdates.
  assert (Hlen : length (date <$> addIntake (Some u) today a log)
                 = length (addIntake (Some u) today a log))
    by apply length_fmap.
  rewrite Hdates in Hlen |- *.
  destruct (decide (today ∈ date <$> log)) as [Hin|Hin].
  - rewrite length_fmap in Hlen. split; [done | lia].
  - rewrite length_app, length_fmap in Hlen. change (length [today]) with 1%nat in Hlen.
    split; [|lia]. intros d Hd. apply elem_of_app. by left.
Qed.


(** X18. [resetToday] removes every record of today, leaves the first
    record of every other date as it was, and doing it twice changes
    nothing more; it also wipes out an addition made just before, and an
    addition made just after starts from zero. *)
Theorem resetToday_clears_today (a : Z) (log : list IntakeRecord) :
  find_date today (resetToday today log) = None /\
  (forall d, d <> today -> find_date d (resetToday today log) = find_date d log) /\
  resetToday today (resetToday today log) = resetToday today log /\
  resetToday today (addIntake (Some u) today a log) = resetToday today log /\
  shown_intake today (addIntake (Some u) today a (resetToday today log)) = a.
Proof.
  split; [|split; [|split; [|split]]].
  - rewrite find_date_resetToday. by rewrite decide_True.
  - intros d Hd. rewrite find_date_resetToday. by rewrite decide_False.
  - unfold resetToday. rewrite list_filter_filter. apply list_filter_iff.
    intros r. tauto.
  - apply resetToday_addIntake.
  - rewrite shown_intake_addIntake, decide_True by done.
    unfold shown_intake. rewrite find_date_resetToday, decide_True by done.
    simpl. lia.
Qed.

End ledger_more.

Lemma addIntake_keeps_one_record_per_date_witness :
  NoDup (date <$> addIntake (Some onboarded_user) "2024-05-09" 250
                    [ {| date := "2024-05-08"; intake := 1900 |} ]) /\
  (forall d, d ∈ date <$> [ {| date := "2024-05-08"; intake := 1900 |} ] ->
             d ∈ date <$> addIntake (Some onboarded_user) "2024-05-09" 250
                            [ {| date := "2024-05-08"; intake := 1900 |} ]) /\
  (length [ {| date := "2024-05-08"; intake := 1900 |} ]
   <= length (addIntake (Some onboarded_user) "2024-05-09" 250
                [ {| date := "2024-05-08"; intake := 1900 |} ])
   <= S (length [ {| date := "2024-05-08"; intake := 1900 |} ]))%nat.
Proof.
  apply (addIntake_keeps_one_record_per_date onboarded_user "2024-05-09" 250
           [ {| date := "2024-05-08"; intake := 1900 |} ]).
  simpl. apply NoDup_singleton.
Defined.

(** ** History *)

Lemma row_intake_shown d log : row_intake d log = shown_intake d log.
Proof.
  unfold row_intake, shown_intake. destruct (find_date d log) as [r|]; simpl; [|done].
  destruct (Z.eqb_spec (intake r) 0); congruence.
Qed.



(** X20. The rows under the chart show the numbers of the chart, newest
    day first, although the two read the log in different ways. *)
Theorem history_rows_match_chart (daysAgo : nat -> string)
  (log : list IntakeRecord) :
  history_rows daysAgo log
    = reverse (zip (lastNDays daysAgo 7) (last7 daysAgo log)).
Proof.
  unfold history_rows, last7. simpl. by rewrite !row_intake_shown.
Qed.

(** ** Streak and achievements *)

Lemma computeStreak_from_spec daysAgo goal log i left k :
  (k <= computeStreak_from daysAgo goal log i left)%nat <->
  (k <= left)%nat /\ forall j, (j < k)%nat -> goal_met goal (daysAgo (i + j)%nat) log.
Proof.
  revert i k. induction left as [|left IH]; intros i k; simpl.
  - split.
    + intros Hk. split; [lia|]. intros j Hj. lia.
    + intros [Hk _]. lia.
  - destruct k as [|k].
    { split; [|lia]. intros _. split; [lia|]. intros j Hj. lia. }
    destruct (find_date (daysAgo i) log) as [entry|] eqn:Hfind.
    + destruct (Z.leb_spec goal (intake entry)) as [Hge|Hlt].
      * rewrite <- Nat.succ_le_mono, IH. split.
        -- intros [Hk Hall]. split; [lia|]. intros [|j] Hj.
           ++ rewrite Nat.add_0_r. by exists entry.
           ++ replace (i + S j)%nat with (S i + j)%nat by lia. apply Hall. lia.
        -- intros [Hk Hall]. split; [lia|]. intros j Hj.
           replace (S i + j)%nat with (i + S j)%nat by lia. apply Hall. lia.
      * split; [lia|]. intros [_ Hall].
        destruct (Hall 0%nat ltac:(lia)) as (entry' & Hf & Hge).
        rewrite Nat.add_0_r, Hfind in Hf. injection Hf as <-. lia.
    + split; [lia|]. intros [_ Hall].
      destruct (Hall 0%nat ltac:(lia)) as (entry' & Hf & _).
      rewrite Nat.add_0_r, Hfind in Hf. done.
Qed.

Lemma computeStreak_unfold daysAgo log :
  computeStreak daysAgo log = computeStreak_from daysAgo 2000 log 0 365.
Proof. reflexivity. Qed.

Lemma computeStreak_from_step daysAgo goal log i left :
  computeStreak_from daysAgo goal log i (S left) =
    match find_date (daysAgo i) log with
    | Some entry =>
        if goal <=? intake entry
        then S (computeStreak_from daysAgo goal log (S i) left)
        else O
    | None => O
    end.
Proof. reflexivity. Qed.

(** X21. The streak is the number of consecutive days, counted back from
    today and capped at 365, whose first record holds at least 2000 ml: it
    is at least [k] exactly when [k] is at most 365 and each of the [k]
    most recent days met the goal. A day without a record ends it. *)
Theorem computeStreak_counts_recent_days (daysAgo : nat -> string)
  (log : list IntakeRecord) (k : nat) :
  (k <= computeStreak daysAgo log)%nat <->
  (k <= 365)%nat /\ forall i, (i < k)%nat -> goal_met 2000 (daysAgo i) log.
Proof. rewrite computeStreak_unfold. apply (computeStreak_from_spec daysAgo 2000 log 0 365 k). Qed.

(** X22. After [resetToday] the streak is 0, however long it was: today
    has no record any more. *)
Theorem computeStreak_after_resetToday (daysAgo : nat -> string)
  (today : string) (log : list IntakeRecord) :
  daysAgo 0%nat = today ->
  computeStreak daysAgo (resetToday today log) = 0%nat.
Proof.
  intros H0. rewrite computeStreak_unfold, (computeStreak_from_step _ _ _ _ 364).
  rewrite H0, find_date_resetToday. by rewrite decide_True.
Qed.

Lemma computeStreak_after_resetToday_witness :
  computeStreak may_days_ago
    (resetToday "2024-05-09"
       [ {| date := "2024-05-09"; intake := 2100 |};
         {| date := "2024-05-08"; intake := 2500 |} ]) = 0%nat.
Proof. apply computeStreak_after_resetToday. reflexivity. Defined.

(** X23. Logging an amount that is not negative never shortens the
    streak. *)
Theorem computeStreak_after_addIntake (daysAgo : nat -> string) (u : User.t)
  (today : string) (a : Z) (log : list IntakeRecord) :
  0 <= a ->
  (computeStreak daysAgo log
   <= computeStreak daysAgo (addIntake (Some u) today a log))%nat.
Proof.
  intros Ha. rewrite !computeStreak_unfold. apply computeStreak_from_spec.
  destruct (proj1 (computeStreak_from_spec daysAgo 2000 log 0 365
                     (computeStreak_from daysAgo 2000 log 0 365)) (le_n _))
    as [Hk Hall].
  split; [done|]. intros j Hj.
  destruct (Hall j Hj) as (entry & Hfind & Hge).
  unfold goal_met. rewrite find_date_addIntake.
  destruct (decide (daysAgo (0 + j)%nat = today)) as [Hd|Hd].
  - rewrite <- Hd, Hfind. eexists. split; [done|]. simpl. lia.
  - by exists entry.
Qed.

Lemma computeStreak_after_addIntake_witness :
  (computeStreak may_days_ago [ {| date := "2024-05-09"; intake := 1900 |} ]
   <= computeStreak may_days_ago
        (addIntake (Some onboarded_user) "2024-05-09" 250
           [ {| date := "2024-05-09"; intake := 1900 |} ]))%nat.
Proof. apply computeStreak_after_addIntake. lia. Defined.

(** X24. The badges: "7-day Streak" is shown exactly when the streak is
    at least 7, "30-day Streak" exactly when it is at least 30, so never
    without the first; "Overachiever" is shown exactly when some record of
    the log, of any date, holds at least 2400 ml. *)
Theorem achievements_shown (daysAgo : nat -> string) (log : list IntakeRecord) :
  ("7-day Streak" ∈ achievements daysAgo log <-> (7 <= computeStreak daysAgo log)%nat) /\
  ("30-day Streak" ∈ achievements daysAgo log <-> (30 <= computeStreak daysAgo log)%nat) /\
  ("30-day Streak" ∈ achievements daysAgo log -> "7-day Streak" ∈ achievements daysAgo log) /\
  ("Overachiever" ∈ achievements daysAgo log <-> exists r, r ∈ log /\ 2400 <= intake r).
Proof.
  assert (H7 : "7-day Streak" ∈ achievements daysAgo log
               <-> (7 <= computeStreak daysAgo log)%nat).
  { unfold achievements. cbv zeta. rewrite !elem_of_app.
    destruct (Nat.leb_spec 7 (computeStreak daysAgo log));
      destruct (30 <=? computeStreak daysAgo log)%nat;
      destruct (existsb _ log);
      rewrite ?list_elem_of_singleton, ?elem_of_nil; split; intros; try lia;
      intuition (done || discriminate || lia). }
  assert (H30 : "30-day Streak" ∈ achievements daysAgo log
                <-> (30 <= computeStreak daysAgo log)%nat).
  { unfold achievements. cbv zeta. rewrite !elem_of_app.
    destruct (7 <=? computeStreak daysAgo log)%nat;
      destruct (Nat.leb_spec 30 (computeStreak daysAgo log));
      destruct (existsb _ log);
      rewrite ?list_elem_of_singleton, ?elem_of_nil; split; intros; try lia;
      intuition (done || discriminate || lia). }
  split; [done|]. split; [done|]. split.
  - rewrite H7, H30. lia.
  - unfold achievements. cbv zeta. rewrite !elem_of_app.
    destruct (existsb _ log) eqn:Hex.
    + apply existsb_exists in Hex as (r & Hin & Hr%Z.leb_le).
      split; [|intros _; right; right; by apply list_elem_of_singleton].
      intros _. exists r. split; [by apply list_elem_of_In|].
      change (or_num (Num (Int loadTodayGoalFromStorageSync)) 2000) with 2000 in Hr. lia.
    + split.
      * destruct (7 <=? computeStreak daysAgo log)%nat,
                 (30 <=? computeStreak daysAgo log)%nat;
          rewrite ?list_elem_of_singleton, ?elem_of_nil;
          intuition discriminate.
      * intros (r & Hin%list_elem_of_In & Hr).
        assert (existsb (fun d => 6 * or_num (Num (Int loadTodayGoalFromStorageSync)) 2000
                                  <=? 5 * intake d) log = true) as Hex'.
        { apply existsb_exists. exists r. split; [done|]. apply Z.leb_le.
          change (or_num (Num (Int loadTodayGoalFromStorageSync)) 2000) with 2000. lia. }
        congruence.
Qed.


(* ===================================================================== *)
(** * Further properties: the home screen and the chart colours          *)
(* ===================================================================== *)

(** ** [parseInt] on digits *)





(** ** [handleAdd] *)

(** X25. An input that [parseInt] reads as [NaN], zero or a negative
    number is refused: the log and the screen, input field included, stay
    as they are and the alert asks for a positive amount. *)
Theorem handleAdd_refuses (user : option User.t) (userGoal : value)
  (today : string) (rnd : nat) (log : list IntakeRecord) (h : home_state)
  (n : num) :
  parseInt (hs_input h) None = Some n ->
  (n = NaN \/ exists z, n = Int z /\ z <= 0) ->
  handleAdd user userGoal today rnd log h = Some (log, h, Some Enter_positive_ml).
Proof.
  intros Hn Hbad. unfold handleAdd. rewrite Hn. simpl.
  destruct Hbad as [->|(z & -> & Hz)]; [done|].
  destruct (Z.eqb_spec z 0); [done|]. simpl.
  destruct (Z.leb_spec z 0); [done | lia].
Qed.

Lemma handleAdd_refuses_witness :
  handleAdd (Some onboarded_user) (Num (Int 2000)) "2024-05-09" 0
    [ {| date := "2024-05-09"; intake := 500 |} ]
    {| hs_input := "-250"; hs_message := ""; hs_showConfetti := false |}
  = Some ([ {| date := "2024-05-09"; intake := 500 |} ],
          {| hs_input := "-250"; hs_message := ""; hs_showConfetti := false |},
          Some Enter_positive_ml).
Proof.
  apply (handleAdd_refuses _ _ _ _ _ _ (Int (-250))); [reflexivity|].
  right. exists (-250). split; [reflexivity | lia].
Defined.





(** ** [hexToRgba] *)

Lemma hex_digit_facts c d :
  hex_digit c d ->
  is_space c = false /\ (128 <=? code c)%N = false /\
  Ascii.eqb c "-" = false /\ Ascii.eqb c "+" = false /\
  Ascii.eqb c "x" = false /\ Ascii.eqb c "X" = false /\
  Ascii.eqb c "#" = false /\ 0 <= d < 16.
Proof.
  intros [Hd Hlt].
  assert (Hne : forall k : ascii,
            (forall e, digit_of k = Some e -> 16 <= e) -> Ascii.eqb c k = false).
  { intros k Hk. destruct (Ascii.eqb_spec c k) as [->|]; [|done].
    specialize (Hk d Hd). lia. }
  assert (Hcode : (48 <= code c <= 122)%N /\ 0 <= d).
  { unfold digit_of, is_digit in Hd.
    destruct (N.leb_spec 48 (code c)), (N.leb_spec (code c) 57); simpl in Hd;
      try (injection Hd as <-; lia);
      destruct (N.leb_spec 97 (code c)), (N.leb_spec (code c) 122); simpl in Hd;
      try (injection Hd as <-; lia);
      destruct (N.leb_spec 65 (code c)), (N.leb_spec (code c) 90); simpl in Hd;
      try (injection Hd as <-; lia); try discriminate. }
  destruct Hcode as [Hcode Hd0].
  repeat split; try (apply Hne; intros e [= <-]; vm_compute; discriminate);
    try (apply Hne; intros e; vm_compute; discriminate); try lia.
  - unfold is_space.
    destruct (N.leb_spec 9 (code c)), (N.leb_spec (code c) 13),
      (N.eqb_spec (code c) 32); simpl; try done; lia.
  - apply N.leb_gt. lia.
Qed.

Lemma parseInt_hex_pair c1 c2 d1 d2 :
  hex_digit c1 d1 -> hex_digit c2 d2 ->
  parseInt (String c1 (String c2 "")) (Some 16) = Some (Int (16 * d1 + d2)).
Proof.
  intros H1 H2.
  destruct (hex_digit_facts c1 d1 H1) as (Hsp & H128 & Hm & Hp & _ & _ & _ & Hr1).
  destruct (hex_digit_facts c2 d2 H2) as (_ & _ & _ & _ & Hx & HX & _ & Hr2).
  destruct H1 as [Hd1 Hl1], H2 as [Hd2 Hl2].
  unfold parseInt. simpl skip_spaces. rewrite Hsp, H128.
  cbn [mbind option_bind default]. rewrite Hm, Hp. cbn [orb]. cbv beta iota zeta.
  rewrite Hx, HX. unfold id. cbn -[digit_of Z.mul Z.add Z.ltb].
  rewrite andb_false_r. change ((16 <? 2) || (36 <? 16)) with false.
  cbn [parse_digits default]. rewrite Hd1, Hd2.
  destruct (Z.ltb_spec d1 16); [|lia]. destruct (Z.ltb_spec d2 16); [|lia].
  f_equal. f_equal. unfold id. lia.
Qed.

Lemma parseInt_hex_single c d :
  hex_digit c d -> parseInt (String c "") (Some 16) = Some (Int d).
Proof.
  intros H. destruct (hex_digit_facts c d H) as (Hsp & H128 & Hm & Hp & _ & _ & _ & Hr).
  destruct H as [Hd Hl].
  unfold parseInt. simpl skip_spaces. rewrite Hsp, H128.
  cbn [mbind option_bind default]. rewrite Hm, Hp. cbn [orb]. cbv beta iota zeta.
  unfold id. cbn -[digit_of Z.mul Z.add Z.ltb]. rewrite Hd.
  destruct (Z.ltb_spec d 16); [|lia]. f_equal. f_equal. unfold id. lia.
Qed.

(** X28. For a colour written ['#'] and six hexadecimal digits,
    [hexToRgba] gives [rgba(r, g, b, opacity)] whose channels are the three
    pairs of digits read in base 16, each between 0 and 255. *)
Theorem hexToRgba_six_digits (c1 c2 c3 c4 c5 c6 : ascii) (d1 d2 d3 d4 d5 d6 : Z)
  (opacity : string) :
  hex_digit c1 d1 -> hex_digit c2 d2 -> hex_digit c3 d3 ->
  hex_digit c4 d4 -> hex_digit c5 d5 -> hex_digit c6 d6 ->
  hexToRgba (String "#" (String c1 (String c2 (String c3 (String c4
               (String c5 (String c6 ""))))))) opacity
    = Some ("rgba(" +:+ pretty (16 * d1 + d2) +:+ ", " +:+ pretty (16 * d3 + d4)
            +:+ ", " +:+ pretty (16 * d5 + d6) +:+ ", " +:+ opacity +:+ ")") /\
  0 <= 16 * d1 + d2 <= 255 /\ 0 <= 16 * d3 + d4 <= 255 /\ 0 <= 16 * d5 + d6 <= 255.
Proof.
  intros H1 H2 H3 H4 H5 H6.
  pose proof (hex_digit_facts _ _ H1) as (_ & _ & _ & _ & _ & _ & _ & ?).
  pose proof (hex_digit_facts _ _ H2) as (_ & _ & _ & _ & _ & _ & _ & ?).
  pose proof (hex_digit_facts _ _ H3) as (_ & _ & _ & _ & _ & _ & _ & ?).
  pose proof (hex_digit_facts _ _ H4) as (_ & _ & _ & _ & _ & _ & _ & ?).
  pose proof (hex_digit_facts _ _ H5) as (_ & _ & _ & _ & _ & _ & _ & ?).
  pose proof (hex_digit_facts _ _ H6) as (_ & _ & _ & _ & _ & _ & _ & ?).
  split; [|lia].
  unfold hexToRgba. cbn [replace_hash]. rewrite Ascii.eqb_refl.
  cbn [substring].
  rewrite (parseInt_hex_pair c1 c2 d1 d2), (parseInt_hex_pair c3 c4 d3 d4),
    (parseInt_hex_pair c5 c6 d5 d6) by done.
  reflexivity.
Qed.

Lemma hexToRgba_six_digits_witness :
  hexToRgba (primary (makeTheme false)) "0.5"
    = Some ("rgba(" +:+ pretty (16 * 0 + 0) +:+ ", " +:+ pretty (16 * 7 + 7)
            +:+ ", " +:+ pretty (16 * 11 + 6) +:+ ", " +:+ "0.5" +:+ ")") /\
  0 <= 16 * 0 + 0 <= 255 /\ 0 <= 16 * 7 + 7 <= 255 /\ 0 <= 16 * 11 + 6 <= 255.
Proof.
  apply (hexToRgba_six_digits "0" "0" "7" "7" "b" "6" 0 0 7 7 11 6 "0.5");
    split; (reflexivity || lia).
Defined.

(** X29. A three-digit colour is not expanded: for ['#'] and three
    hexadecimal digits, red is the first two digits, green the third alone
    and blue is [NaN], so the result is no valid colour. The label colour
    of the light theme, ["#666"], is such a string. *)
Theorem hexToRgba_three_digits (c1 c2 c3 : ascii) (d1 d2 d3 : Z) (opacity : string) :
  hex_digit c1 d1 -> hex_digit c2 d2 -> hex_digit c3 d3 ->
  hexToRgba (String "#" (String c1 (String c2 (String c3 "")))) opacity
    = Some ("rgba(" +:+ pretty (16 * d1 + d2) +:+ ", " +:+ pretty d3
            +:+ ", NaN, " +:+ opacity +:+ ")").
Proof.
  intros H1 H2 H3.
  unfold hexToRgba. cbn [replace_hash]. rewrite Ascii.eqb_refl.
  cbn [substring].
  rewrite (parseInt_hex_pair c1 c2 d1 d2), (parseInt_hex_single c3 d3) by done.
  reflexivity.
Qed.

Lemma hexToRgba_three_digits_witness :
  hexToRgba (subtext (makeTheme false)) "1"
    = Some ("rgba(" +:+ pretty (16 * 6 + 6) +:+ ", " +:+ pretty 6
            +:+ ", NaN, " +:+ "1" +:+ ")").
Proof.
  apply (hexToRgba_three_digits "6" "6" "6" 6 6 6 "1"); split; (reflexivity || lia).
Defined.

(** What the chart of the light theme is given for its labels. *)
Example light_theme_label_colour :
  hexToRgba (subtext (makeTheme false)) "1" = Some "rgba(102, 6, NaN, 1)".
Proof. reflexivity. Qed.
